(** * svg-map-generator: the map renderer of [src/mapGenerator.js]

    A shallow embedding of [generateMap], [setupProjection] and [applyBounds],
    with the properties of the renderer's specification proved about it.

    Conventions of the embedding.
    - A JavaScript string is the [string] of its UTF-8 encoding, which is
      how a string literal is read here. [split] and [trim] are those of
      ECMAScript, [trim] with all its white space and line terminators; the
      case mappings act on the ASCII letters and leave every other character
      as it is, and no other character folds into a letter the module
      compares with.
    - A JavaScript number is a binary64 [float]; a destructured variable is an
      [option float], [None] standing for [undefined].
    - The options are strings or left undefined, and the style overrides are
      strings, as a command line gives them; an override that is present with
      a value that is not a string is not represented.
    - [throw new Error(msg)] is the result [Throw (Error msg)].
    - The collaborators the module imports (the builtin [Number], d3-geo,
      d3-geo-projection, d3-node, [fs] and [./dataProcessor.js]) are
      parameters of the development: every theorem holds for whatever they
      compute. *)

From Stdlib Require Import Floats Uint63 ZArith Ascii String.
From stdpp Require Import base option list strings gmap.

(** ** Strings *)

Definition isUpperAlpha (c : ascii) : bool :=
  let n := N_of_ascii c in ((65 <=? n) && (n <=? 90))%N.

Definition isLowerAlpha (c : ascii) : bool :=
  let n := N_of_ascii c in ((97 <=? n) && (n <=? 122))%N.

Definition toUpperChar (c : ascii) : ascii :=
  if isLowerAlpha c then ascii_of_N (N_of_ascii c - 32) else c.

Definition toLowerChar (c : ascii) : ascii :=
  if isUpperAlpha c then ascii_of_N (N_of_ascii c + 32) else c.

(** [String.prototype.toUpperCase] *)
Fixpoint toUpperCase (s : string) : string :=
  match s with
  | EmptyString => EmptyString
  | String c s' => String (toUpperChar c) (toUpperCase s')
  end.

(** [String.prototype.toLowerCase] *)
Fixpoint toLowerCase (s : string) : string :=
  match s with
  | EmptyString => EmptyString
  | String c s' => String (toLowerChar c) (toLowerCase s')
  end.

(** [String.prototype.split] with a one-character separator: the result is
    never empty, and the empty string splits into one empty piece. *)
Fixpoint split (sep : ascii) (s : string) : list string :=
  match s with
  | EmptyString => [EmptyString]
  | String c s' =>
      if Ascii.eqb c sep then EmptyString :: split sep s'
      else match split sep s' with
           | piece :: pieces => String c piece :: pieces
           | [] => [String c EmptyString]
           end
  end.

(** The string made of the bytes with the given codes. *)
Definition bytes (codes : list N) : string :=
  string_of_list_ascii (List.map ascii_of_N codes).

(** The white space and line terminators of ECMAScript, each in UTF-8:
    U+0009 to U+000D, U+0020, U+00A0, U+1680, U+2000 to U+200A, U+2028,
    U+2029, U+202F, U+205F, U+3000 and U+FEFF. *)
Definition WHITE_SPACE : list string :=
  List.map bytes
    [ [9]; [10]; [11]; [12]; [13]; [32];
      [194; 160];
      [225; 154; 128];
      [226; 128; 128]; [226; 128; 129]; [226; 128; 130]; [226; 128; 131];
      [226; 128; 132]; [226; 128; 133]; [226; 128; 134]; [226; 128; 135];
      [226; 128; 136]; [226; 128; 137]; [226; 128; 138];
      [226; 128; 168]; [226; 128; 169]; [226; 128; 175];
      [226; 129; 159];
      [227; 128; 128];
      [239; 187; 191] ]%N.

(** What is left of [s] after the prefix [w], when [s] starts with [w]. *)
Fixpoint dropPrefix (w s : string) : option string :=
  match w with
  | EmptyString => Some s
  | String a w' =>
      match s with
      | String b s' => if Ascii.eqb a b then dropPrefix w' s' else None
      | EmptyString => None
      end
  end.

(** What is left of [s] after one character of the table, when [s] starts
    with one. *)
Fixpoint stripOne (table : list string) (s : string) : option string :=
  match table with
  | [] => None
  | w :: rest =>
      match dropPrefix w s with
      | Some r => Some r
      | None => stripOne rest s
      end
  end.

(** Characters of the table are taken off the start of [s] for as long as
    there is one; [fuel] bounds the number of steps, and the length of [s] is
    enough. *)
Fixpoint stripAll (table : list string) (fuel : nat) (s : string) : string :=
  match fuel with
  | O => s
  | S fuel' =>
      match stripOne table s with
      | Some r => stripAll table fuel' r
      | None => s
      end
  end.

Fixpoint revAppend (s acc : string) : string :=
  match s with
  | EmptyString => acc
  | String c s' => revAppend s' (String c acc)
  end.

Definition reverseString (s : string) : string := revAppend s EmptyString.

(** [String.prototype.trimStart] *)
Definition trimStart (s : string) : string :=
  stripAll WHITE_SPACE (String.length s) s.

(** [String.prototype.trimEnd]: the same, from the end. *)
Definition trimEnd (s : string) : string :=
  reverseString
    (stripAll (List.map reverseString WHITE_SPACE) (String.length s) (reverseString s)).

(** [String.prototype.trim] *)
Definition trim (s : string) : string := trimEnd (trimStart s).

(** A string made of characters of the table only. *)
Inductive concatOf (table : list string) : string -> Prop :=
  | concatOf_nil : concatOf table EmptyString
  | concatOf_cons (w s : string) :
      w ∈ table -> concatOf table s -> concatOf table (w +:+ s).

(** Trimming in the words of the language's specification: [identifier] is
    [piece] without the white space at its two ends. It is what stands
    between a run of white space that starts [piece] and one that ends it,
    and it neither starts nor ends with a white space character. *)
Definition trimmedFrom (piece identifier : string) : Prop :=
  exists before after,
    piece = before +:+ identifier +:+ after /\
    concatOf WHITE_SPACE before /\
    concatOf WHITE_SPACE after /\
    (forall w rest, w ∈ WHITE_SPACE -> identifier <> w +:+ rest) /\
    (forall w front, w ∈ WHITE_SPACE -> identifier <> front +:+ w).

(** How many times a character occurs in a string. *)
Fixpoint countChar (c : ascii) (s : string) : nat :=
  match s with
  | EmptyString => 0
  | String c' s' => (if Ascii.eqb c' c then 1 else 0) + countChar c s'
  end.

(** A string in a condition, [if (s)]: the empty string is falsy. *)
Definition truthy (s : string) : bool := negb (String.eqb s "").


(** Equality of two strings up to the case of their letters, by folding both
    to lower case. *)
Definition caseInsensitiveEq (s t : string) : Prop :=
  toLowerCase s = toLowerCase t.

(** ** Numbers *)

(** [isNaN(v)] for a destructured variable: [isNaN(undefined)] is [true],
    since [undefined] converts to NaN. *)
Definition isNaN (v : option float) : bool :=
  match v with
  | Some x => PrimFloat.is_nan x
  | None => true
  end.

(** ** Errors *)

(** A thrown object: an [Error] the module raises with [throw new Error(msg)],
    or the [TypeError] the engine raises on a property read of [undefined]. *)
Inductive JsError : Type :=
  | Error (message : string)
  | TypeError (message : string).

Definition message (e : JsError) : string :=
  match e with
  | Error m => m
  | TypeError m => m
  end.

Inductive Result (A : Type) : Type :=
  | Ok (a : A)
  | Throw (e : JsError).
Arguments Ok {A} a.
Arguments Throw {A} e.

#[global] Instance Result_ret : MRet Result := fun _ a => Ok a.
#[global] Instance Result_bind : MBind Result := fun _ _ f r =>
  match r with
  | Ok a => f a
  | Throw e => Throw e
  end.

(** The two errors [mapGenerator.js] raises itself; the specification calls
    them UnsupportedProjectionError and InvalidBoundsError. *)
Definition UnsupportedProjectionError (projectionType : string) : JsError :=
  Error ("Unsupported projection type: " +:+ projectionType).

Definition InvalidBoundsError : JsError :=
  Error "Invalid bounds format. Expected: minLat,maxLat,minLon,maxLon".

(** ** Constants *)

Definition WIDTH : float := 1200.
Definition HEIGHT : float := 800.

(** ** Projections *)

Inductive ProjectionKind : Type :=
  | Waterman   (* geoPolyhedralWaterman, imported as geoWaterman *)
  | Winkel3.   (* geoWinkel3 *)

(** The state of a d3 projection object this module reads or writes. *)
Record Projection : Type := mkProjection {
  kind : ProjectionKind;
  scale : float;
  translate : float * float;
  rotate : list float
}.

(** The setters [projection.scale(k)], [.translate(t)] and [.rotate(angles)]. *)
Definition setScale (k : float) (p : Projection) : Projection :=
  mkProjection (kind p) k (translate p) (rotate p).

Definition setTranslate (t : float * float) (p : Projection) : Projection :=
  mkProjection (kind p) (scale p) t (rotate p).

Definition setRotate (angles : list float) (p : Projection) : Projection :=
  mkProjection (kind p) (scale p) (translate p) angles.

(** GeoJSON as [applyBounds] builds it: a Feature whose geometry is a Polygon
    given by its rings of [lon, lat] positions. *)
Inductive Geometry : Type := Polygon (coordinates : list (list (float * float))).
Inductive GeoFeature : Type := Feature (geometry : Geometry).

Definition Extent : Type := (float * float) * (float * float).

(** ** The SVG document *)

(** What [selection.datum(...)] binds to an element: the sphere, the lines of
    [geoGraticule().step(step)], or the geometry a dataset resolved to. *)
Inductive Datum (G : Type) : Type :=
  | Sphere
  | Graticule (step : list float)
  | Dataset (mapData : G).
Arguments Sphere {G}.
Arguments Graticule {G} step.
Arguments Dataset {G} mapData.

#[warnings="-register-all"]
Inductive Element (G : Type) : Type :=
  mkElement (tag : string) (datum : option (Datum G))
            (attributes : list (string * string)) (children : list (Element G)).
Arguments mkElement {G} tag datum attributes children.

Definition tag {G} (e : Element G) : string :=
  match e with mkElement t _ _ _ => t end.
Definition datum {G} (e : Element G) : option (Datum G) :=
  match e with mkElement _ d _ _ => d end.
Definition attributes {G} (e : Element G) : list (string * string) :=
  match e with mkElement _ _ a _ => a end.
Definition children {G} (e : Element G) : list (Element G) :=
  match e with mkElement _ _ _ c => c end.

Fixpoint removeAttribute (name : string) (l : list (string * string))
  : list (string * string) :=
  match l with
  | [] => []
  | (n, v) :: l' =>
      if String.eqb n name then removeAttribute name l'
      else (n, v) :: removeAttribute name l'
  end.

Fixpoint setAttribute (name value : string) (l : list (string * string))
  : list (string * string) :=
  match l with
  | [] => [(name, value)]
  | (n, v) :: l' =>
      if String.eqb n name then (n, value) :: l'
      else (n, v) :: setAttribute name value l'
  end.

(** [selection.attr(name, value)]: a null or undefined value removes the
    attribute, any other sets it. *)
Definition attr {G} (name : string) (value : option string) (e : Element G)
  : Element G :=
  mkElement (tag e) (datum e)
    (match value with
     | Some v => setAttribute name v (attributes e)
     | None => removeAttribute name (attributes e)
     end)
    (children e).

(** [selection.append(...)], with the appended element given whole: the new
    element comes after the children already there. *)
Definition append {G} (child : Element G) (parent : Element G) : Element G :=
  mkElement (tag parent) (datum parent) (attributes parent)
    (children parent ++ [child]).

(** A new element [selection.append(tag)] creates, before it is configured. *)
Definition element {G} (t : string) : Element G := mkElement t None [] [].

(** [selection.datum(d)] *)
Definition setDatum {G} (d : Datum G) (e : Element G) : Element G :=
  mkElement (tag e) (Some d) (attributes e) (children e).

(** The attribute [name] of an element, when it has one. *)
Fixpoint assoc (name : string) (l : list (string * string)) : option string :=
  match l with
  | [] => None
  | (n, v) :: l' => if String.eqb n name then Some v else assoc name l'
  end.

Definition getAttribute {G} (name : string) (e : Element G) : option string :=
  assoc name (attributes e).

(** The paths of a document, by what they draw: an element of [svg] is a
    dataset path, or a graticule path, when it is a [path] bound to such a
    datum. *)
Definition isDatasetPath {G} (e : Element G) : bool :=
  String.eqb (tag e) "path" &&
  match datum e with
  | Some (Dataset _) => true
  | _ => false
  end.

Definition isGraticulePath {G} (e : Element G) : bool :=
  String.eqb (tag e) "path" &&
  match datum e with
  | Some (Graticule _) => true
  | _ => false
  end.

Definition datasetPaths {G} (doc : Element G) : list (Element G) :=
  List.filter isDatasetPath (children doc).

Definition graticulePaths {G} (doc : Element G) : list (Element G) :=
  List.filter isGraticulePath (children doc).

(** ** Options and styles *)

(** The properties of [options] that [generateMap] reads; [None] is a
    property left [undefined]. The style overrides map a key to a string: a
    key that is present with [undefined], [null] or another value that is not
    a string is not represented. *)
Record Options : Type := mkOptions {
  opt_projection : option string;
  opt_mapdata : option string;
  opt_output : option string;
  opt_center : option string;
  opt_bounds : option string;
  opt_styles : option (gmap string string)
}.

Definition DEFAULT_STYLES : gmap string string :=
  list_to_map
    [ ("linethickness", "1");
      ("linecolor", "black");
      ("outlinethickness", "0.5");
      ("outlinecolor", "black");
      ("showgraticules", "true");
      ("background", "white") ].

(** Object spread [{ ...base, ...over }]: a key of [over] replaces the same
    key of [base]. *)
Definition spread (base over : gmap string string) : gmap string string :=
  over ∪ base.

(** ** Effects *)

(** The calls [generateMap] makes to the outside, in the order it makes them. *)
Inductive Event : Type :=
  | Load (dataset : string)
  | WriteFile (path content : string).

(** An asynchronous computation: from the calls made so far to a result and
    the calls made by the end. *)
Definition Async (A : Type) : Type := list Event -> Result A * list Event.

#[global] Instance Async_ret : MRet Async := fun _ a t => (Ok a, t).
#[global] Instance Async_bind : MBind Async := fun _ _ f m t =>
  match m t with
  | (Ok a, t') => f a t'
  | (Throw e, t') => (Throw e, t')
  end.

(** A synchronous step inside the asynchronous function. *)
Definition sync {A} (r : Result A) : Async A := fun t => (r, t).

(** An awaited call to the outside: it is recorded, then its result is
    returned or its error thrown. *)
Definition await {A} (ev : Event) (r : Result A) : Async A :=
  fun t => (r, t ++ [ev]).

(** ** Collaborators *)

Class Collaborators : Type := {
  (** the geometry [loadDataset] resolves a dataset to *)
  GeoJSON : Type;
  (** the builtin [Number] on strings *)
  Number : string -> float;
  (** what d3-geo-projection's constructors leave in a fresh projection *)
  defaultScale : ProjectionKind -> float;
  defaultTranslate : ProjectionKind -> float * float;
  defaultRotate : ProjectionKind -> list float;
  (** d3-geo's [projection.fitExtent(extent, object)] *)
  fitExtent : Extent -> GeoFeature -> Projection -> Projection;
  (** d3-geo's [geoPath().projection(proj)], applied to a datum: the path
      data, or null when nothing is to be drawn *)
  geoPath : Projection -> Datum GeoJSON -> option string;
  (** d3-node's [createSVG(width, height)] and [svgString()] *)
  createSVG : float -> float -> Element GeoJSON;
  svgString : Element GeoJSON -> string;
  (** [loadDataset] of [./dataProcessor.js] *)
  loadDataset : string -> Result GeoJSON;
  (** [fs.writeFile(path, content, 'utf8')] *)
  writeFile : string -> string -> Result unit
}.

Section MapGenerator.

Context `{Collaborators}.

Definition newProjection (k : ProjectionKind) : Projection :=
  mkProjection k (defaultScale k) (defaultTranslate k) (defaultRotate k).

Definition geoWaterman : Projection := newProjection Waterman.
Definition geoWinkel3 : Projection := newProjection Winkel3.

(** *** setupProjection (lines 110-136) *)

(** The [switch] on the upper-cased identifier (lines 113-126). *)
Definition selectProjection (projectionType : string) : Result Projection :=
  let upper := toUpperCase projectionType in
  if String.eqb upper "WB" then
    Ok (setTranslate (WIDTH / 2, HEIGHT / 2)%float
          (setScale (WIDTH / 10)%float geoWaterman))
  else if String.eqb upper "W3" then
    Ok (setTranslate (WIDTH / 2, HEIGHT / 2)%float
          (setScale (WIDTH / 6)%float geoWinkel3))
  else Throw (UnsupportedProjectionError projectionType).

(** The centre (lines 128-133): [const [lat, lon] = center.split(',').map(Number)],
    then the rotation when neither is NaN. [Number] reads its first argument
    only, so [map(Number)] converts each piece. A variable past the end of
    the array is [undefined], for which [isNaN] answers true. *)
Definition applyCenter (center : option string) (proj : Projection) : Projection :=
  match center with
  | Some c =>
      if truthy c then
        let parts := map Number (split "," c) in
        let lat := parts !! 0%nat in
        let lon := parts !! 1%nat in
        if negb (isNaN lat) && negb (isNaN lon) then
          match lat, lon with
          | Some lat, Some lon => setRotate [lon; lat; 0%float] proj
          | _, _ => proj
          end
        else proj
      else proj
  | None => proj
  end.

Definition setupProjection (projectionType : string) (center : option string)
  : Result Projection :=
  proj ← selectProjection projectionType;
  mret (applyCenter center proj).

(** *** applyBounds (lines 143-167) *)

Definition boundingBox (minLat maxLat minLon maxLon : float) : GeoFeature :=
  Feature (Polygon [[ (minLon, minLat);
                      (minLon, maxLat);
                      (maxLon, maxLat);
                      (maxLon, minLat);
                      (minLon, minLat) ]]).

Definition EXTENT : Extent := ((0, 0), (WIDTH, HEIGHT))%float.

(** Past the [isNaN] test the four variables are numbers; the last branch of
    the [match] is there for totality and is never taken. *)
Definition applyBounds (projection : Projection) (bounds : string)
  : Result Projection :=
  let parts := map Number (split "," bounds) in
  let minLat := parts !! 0%nat in
  let maxLat := parts !! 1%nat in
  let minLon := parts !! 2%nat in
  let maxLon := parts !! 3%nat in
  if existsb isNaN [minLat; maxLat; minLon; maxLon] then Throw InvalidBoundsError
  else
    match minLat, maxLat, minLon, maxLon with
    | Some minLat, Some maxLat, Some minLon, Some maxLon =>
        Ok (fitExtent EXTENT (boundingBox minLat maxLat minLon maxLon) projection)
    | _, _, _, _ => Throw InvalidBoundsError
    end.

(** *** generateMap (lines 26-102) *)

(** Lines 43-46: the projection is set up, then fitted when [bounds] is
    truthy. *)
Definition mapProjection (projection : string) (center bounds : option string)
  : Result Projection :=
  proj ← setupProjection projection center;
  match bounds with
  | Some b => if truthy b then applyBounds proj b else mret proj
  | None => mret proj
  end.

(** Line 33 *)
Definition mergedStyles (options : Options) : gmap string string :=
  spread DEFAULT_STYLES (default ∅ (opt_styles options)).

(** Lines 53-61: the sphere and the clip path that uses it, under [defs]. *)
Definition defsElement (proj : Projection) : Element GeoJSON :=
  append
    (append (attr "href" (Some "#sphere") (element "use"))
       (attr "id" (Some "clip") (element "clipPath")))
    (append
       (attr "d" (geoPath proj Sphere)
          (attr "id" (Some "sphere") (setDatum Sphere (element "path"))))
       (element "defs")).

(** Lines 64-68: the background. *)
Definition backgroundElement (styles : gmap string string) : Element GeoJSON :=
  attr "stroke-width" (styles !! "outlinethickness")
    (attr "stroke" (styles !! "outlinecolor")
       (attr "fill" (styles !! "background")
          (attr "href" (Some "#sphere") (element "use")))).

(** Lines 72-80: the graticule path. *)
Definition graticuleElement (proj : Projection) : Element GeoJSON :=
  let graticule := Graticule [15; 15]%float in
  attr "stroke-dasharray" (Some "2,2")
    (attr "stroke-width" (Some "0.5")
       (attr "stroke" (Some "#666")
          (attr "fill" (Some "none")
             (attr "clip-path" (Some "url(#clip)")
                (attr "d" (geoPath proj graticule)
                   (setDatum graticule (element "path"))))))).

(** Lines 88-94: the path of one dataset. *)
Definition datasetElement (proj : Projection) (styles : gmap string string)
    (mapData : GeoJSON) : Element GeoJSON :=
  attr "stroke-width" (styles !! "linethickness")
    (attr "stroke" (styles !! "linecolor")
       (attr "fill" (Some "none")
          (attr "clip-path" (Some "url(#clip)")
             (attr "d" (geoPath proj (Dataset mapData))
                (setDatum (Dataset mapData) (element "path")))))).

(** Lines 84-95: the loop over the datasets. *)
Fixpoint drawDatasets (proj : Projection) (styles : gmap string string)
    (datasets : list string) (svg : Element GeoJSON) : Async (Element GeoJSON) :=
  match datasets with
  | [] => mret svg
  | dataset :: rest =>
      mapData ← await (Load dataset) (loadDataset dataset);
      drawDatasets proj styles rest (append (datasetElement proj styles mapData) svg)
  end.

(** Every dataset resolves: [geos] are the geometries, in order. *)
Definition allLoad (datasets : list string) (geos : list GeoJSON) : Prop :=
  Forall2 (fun dataset mapData => loadDataset dataset = Ok mapData) datasets geos.

(** Line 71: [styles.showgraticules.toLowerCase() === 'true']; reading
    [toLowerCase] off an undefined value is a TypeError. *)
Definition graticulesEnabled (styles : gmap string string) : Result bool :=
  match styles !! "showgraticules" with
  | Some v => Ok (String.eqb (toLowerCase v) "true")
  | None => Throw (TypeError "Cannot read properties of undefined")
  end.

(** Line 30 *)
Definition parseDatasets (mapdata : string) : list string :=
  map trim (split "," mapdata).

(** Lines 27-95: the document as it stands when it is serialized. In the
    source [defs] is appended to [svg] before it is filled; the document that
    results is the same. *)
Definition buildDocument (options : Options) : Async (Element GeoJSON) :=
  let projection := default "WB" (opt_projection options) in
  let mapdata := default "50mcoastline" (opt_mapdata options) in
  let datasets := parseDatasets mapdata in
  let styles := mergedStyles options in
  let svg := attr "viewBox" (Some "0 0 1200 800") (createSVG WIDTH HEIGHT) in
  proj ← sync (mapProjection projection (opt_center options) (opt_bounds options));
  let svg := append (defsElement proj) svg in
  let svg := append (backgroundElement styles) svg in
  enabled ← sync (graticulesEnabled styles);
  let svg := if enabled : bool then append (graticuleElement proj) svg else svg in
  drawDatasets proj styles datasets svg.

Definition generateMap (options : Options) : Async string :=
  let output := default "map.svg" (opt_output options) in
  svg ← buildDocument options;
  let svgContent := svgString svg in
  _ ← await (WriteFile output svgContent) (writeFile output svgContent);
  mret svgContent.

End MapGenerator.

(** ** Sample collaborators

    One concrete set of collaborators, on which the embedding runs. Its
    [Number] reads the empty string as 0 and an unsigned decimal integer
    below 2^53 as its value, as the builtin does; it answers NaN for every
    other string, which is what the builtin does for "x" and "abc", the only
    such strings used below. *)

Definition digitValue (c : ascii) : option Z :=
  let n := N_of_ascii c in
  if ((48 <=? n) && (n <=? 57))%N then Some (Z.of_N n - 48)%Z else None.

Fixpoint digitsValue (s : string) (acc : Z) : option Z :=
  match s with
  | EmptyString => Some acc
  | String c s' =>
      match digitValue c with
      | Some d => digitsValue s' (10 * acc + d)%Z
      | None => None
      end
  end.

Definition sampleNumber (s : string) : float :=
  match digitsValue s 0 with
  | Some n =>
      if (n <? 2 ^ 53)%Z then PrimFloat.of_uint63 (Uint63.of_Z n) else nan
  | None => nan
  end.

Definition sampleLoadDataset (dataset : string) : Result string :=
  if String.eqb dataset "missing" then Throw (Error "Unknown dataset: missing")
  else Ok dataset.

(** Path data that name what is drawn, and a serialization that lists the
    tags of the root's children. *)
Definition samplePath (proj : Projection) (d : Datum string) : option string :=
  match d with
  | Sphere => Some "sphere"
  | Graticule _ => Some "graticule"
  | Dataset mapData => Some mapData
  end.

Definition sampleSvgString (doc : Element string) : string :=
  "<svg>" +:+ String.concat "" (map (fun e => "<" +:+ tag e +:+ "/>") (children doc))
    +:+ "</svg>".

Definition sampleCollaborators : Collaborators := {|
  GeoJSON := string;
  Number := sampleNumber;
  defaultScale := fun _ => 150%float;
  defaultTranslate := fun _ => (480, 250)%float;
  defaultRotate := fun _ => [0; 0; 0]%float;
  fitExtent := fun extent _ p => setTranslate (snd extent) (setScale 1%float p);
  geoPath := samplePath;
  createSVG := fun _ _ => element "svg";
  svgString := sampleSvgString;
  loadDataset := sampleLoadDataset;
  writeFile := fun _ _ => Ok tt
|}.

Definition sampleOptions : Options :=
  mkOptions (Some "wb") (Some " a , b,c ") None (Some "10,20") (Some "10,20,30,40") None.

Definition sampleStyled (showgraticules : string) : Options :=
  mkOptions None (Some "a,b,c") None None None
    (Some {[ "showgraticules" := showgraticules ]}).

(** The projection [setupProjection] returns for "WB" and no centre on the
    sample collaborators. *)
Definition sampleWB : Projection :=
  mkProjection Waterman 120%float (600, 400)%float [0; 0; 0]%float.

(** * Properties *)

(** ** Case folding *)

Lemma toUpperChar_toLowerChar (c : ascii) :
  toUpperChar (toLowerChar c) = toUpperChar c.
Proof. destruct c as [[] [] [] [] [] [] [] []]; reflexivity. Qed.

Lemma toLowerChar_toUpperChar (c : ascii) :
  toLowerChar (toUpperChar c) = toLowerChar c.
Proof. destruct c as [[] [] [] [] [] [] [] []]; reflexivity. Qed.

Lemma toUpperCase_toLowerCase (s : string) :
  toUpperCase (toLowerCase s) = toUpperCase s.
Proof.
  induction s as [|c s IH]; simpl; [reflexivity|].
  now rewrite toUpperChar_toLowerChar, IH.
Qed.

Lemma toLowerCase_toUpperCase (s : string) :
  toLowerCase (toUpperCase s) = toLowerCase s.
Proof.
  induction s as [|c s IH]; simpl; [reflexivity|].
  now rewrite toLowerChar_toUpperChar, IH.
Qed.

(** Folding to lower case and folding to upper case identify the same
    strings, so the [switch] on the upper-cased identifier is a comparison up
    to case. *)
Lemma caseInsensitiveEq_upper (s t : string) :
  caseInsensitiveEq s t <-> toUpperCase s = toUpperCase t.
Proof.
  unfold caseInsensitiveEq; split; intros E.
  - rewrite <- (toUpperCase_toLowerCase s), <- (toUpperCase_toLowerCase t).
    now rewrite E.
  - rewrite <- (toLowerCase_toUpperCase s), <- (toLowerCase_toUpperCase t).
    now rewrite E.
Qed.

Lemma toUpperChar_W (c : ascii) :
  toUpperChar c = "W"%char -> c = "W"%char \/ c = "w"%char.
Proof.
  destruct c as [[] [] [] [] [] [] [] []]; vm_compute; intros E;
    first [ discriminate E | now left | now right ].
Qed.

Lemma toUpperChar_B (c : ascii) :
  toUpperChar c = "B"%char -> c = "B"%char \/ c = "b"%char.
Proof.
  destruct c as [[] [] [] [] [] [] [] []]; vm_compute; intros E;
    first [ discriminate E | now left | now right ].
Qed.

(** The identifiers that equal "WB" up to case are the four spellings. *)
Lemma caseInsensitiveEq_WB (s : string) :
  caseInsensitiveEq s "WB" <-> s ∈ ["WB"; "Wb"; "wB"; "wb"].
Proof.
  rewrite caseInsensitiveEq_upper. split.
  - destruct s as [|c1 [|c2 [|c3 s]]]; simpl; intros E; try discriminate E.
    injection E as E1 E2.
    destruct (toUpperChar_W _ E1), (toUpperChar_B _ E2); subst;
      repeat (first [ apply list_elem_of_here | apply list_elem_of_further ]).
  - rewrite !elem_of_cons, elem_of_nil.
    intros [-> | [-> | [-> | [-> | []]]]]; reflexivity.
Qed.

(** ** Splitting *)

Lemma split_nonempty (sep : ascii) (s : string) : split sep s <> [].
Proof.
  destruct s as [|c s]; simpl; [discriminate|].
  destruct (Ascii.eqb c sep); [discriminate|].
  destruct (split sep s); discriminate.
Qed.

Lemma append_String (c : ascii) (s r : string) :
  String c s +:+ r = String c (s +:+ r).
Proof. reflexivity. Qed.

(** Text after one more separator adds its own pieces after those already
    there, and changes none of them. *)
Lemma split_append (sep : ascii) (s r : string) :
  split sep (s +:+ String sep r) = split sep s ++ split sep r.
Proof.
  induction s as [|c s IH].
  - change (EmptyString +:+ String sep r) with (String sep r).
    simpl. rewrite Ascii.eqb_refl. reflexivity.
  - rewrite append_String. simpl. rewrite IH.
    destruct (Ascii.eqb c sep); [reflexivity|].
    destruct (split sep s) as [|piece pieces] eqn:E.
    + destruct (split_nonempty _ _ E).
    + reflexivity.
Qed.

Lemma split_append_comma (s r : string) :
  split "," (s +:+ "," +:+ r) = split "," s ++ split "," r.
Proof. exact (split_append ","%char s r). Qed.

Lemma split_two_truthy (sep : ascii) (s : string) :
  2 <= length (split sep s) -> truthy s = true.
Proof.
  destruct s as [|c s]; simpl; [lia|reflexivity].
Qed.

(** The pieces are one more than the separators, and no piece holds one. *)
Lemma split_length (sep : ascii) (s : string) :
  length (split sep s) = S (countChar sep s).
Proof.
  induction s as [|c s IH]; simpl; [reflexivity|].
  destruct (Ascii.eqb c sep); simpl; [now rewrite IH|].
  destruct (split sep s) as [|piece pieces] eqn:E.
  - destruct (split_nonempty _ _ E).
  - simpl in *. exact IH.
Qed.

Lemma split_pieces (sep : ascii) (s : string) :
  Forall (fun piece => countChar sep piece = 0) (split sep s).
Proof.
  induction s as [|c s IH]; simpl.
  - constructor; [reflexivity|constructor].
  - destruct (Ascii.eqb c sep) eqn:Ec.
    + constructor; [reflexivity|exact IH].
    + destruct (split sep s) as [|piece pieces] eqn:E.
      * destruct (split_nonempty _ _ E).
      * inversion IH as [|? ? Hp Hps]; subst.
        constructor; [|exact Hps]. simpl. rewrite Ec. exact Hp.
Qed.

(** Joining the pieces with the separator gives the string back. *)
Lemma concat_split (sep : ascii) (s : string) :
  String.concat (String sep EmptyString) (split sep s) = s.
Proof.
  induction s as [|c s IH]; [reflexivity|].
  cbn [split]. destruct (Ascii.eqb_spec c sep) as [->|_].
  - destruct (split sep s) as [|piece pieces] eqn:E.
    + destruct (split_nonempty _ _ E).
    + change (String.concat (String sep "") ("" :: piece :: pieces))
        with (String sep (String.concat (String sep "") (piece :: pieces))).
      now rewrite IH.
  - destruct (split sep s) as [|piece pieces] eqn:E.
    + destruct (split_nonempty _ _ E).
    + rewrite <- IH. destruct pieces; reflexivity.
Qed.

(** ** Appending and reversing *)

Lemma append_nil_r (s : string) : s +:+ "" = s.
Proof. induction s as [|c s IH]; [reflexivity|]. now rewrite append_String, IH. Qed.

Lemma append_assoc (a b c : string) : (a +:+ b) +:+ c = a +:+ b +:+ c.
Proof.
  induction a as [|x a IH]; [reflexivity|]. now rewrite !append_String, IH.
Qed.

Lemma length_append (a b : string) :
  String.length (a +:+ b) = String.length a + String.length b.
Proof.
  induction a as [|x a IH]; [reflexivity|]. rewrite append_String. simpl.
  now rewrite IH.
Qed.

Lemma countChar_append (c : ascii) (a b : string) :
  countChar c (a +:+ b) = countChar c a + countChar c b.
Proof.
  induction a as [|x a IH]; [reflexivity|]. rewrite append_String. simpl.
  rewrite IH. lia.
Qed.

Lemma revAppend_append (s acc : string) :
  revAppend s acc = reverseString s +:+ acc.
Proof.
  unfold reverseString. revert acc.
  induction s as [|c s IH]; intros acc; [reflexivity|].
  simpl. rewrite (IH (String c acc)), (IH (String c "")), append_assoc.
  reflexivity.
Qed.

Lemma reverseString_append (a b : string) :
  reverseString (a +:+ b) = reverseString b +:+ reverseString a.
Proof.
  induction a as [|x a IH].
  - change ("" +:+ b) with b. now rewrite append_nil_r.
  - rewrite append_String. unfold reverseString at 1 3. simpl.
    rewrite !revAppend_append, IH, append_assoc. reflexivity.
Qed.

Lemma reverseString_involutive (s : string) : reverseString (reverseString s) = s.
Proof.
  induction s as [|c s IH]; [reflexivity|].
  unfold reverseString at 2. simpl.
  rewrite revAppend_append, reverseString_append, IH. reflexivity.
Qed.

Lemma length_reverseString (s : string) :
  String.length (reverseString s) = String.length s.
Proof.
  induction s as [|c s IH]; [reflexivity|].
  unfold reverseString. simpl. rewrite revAppend_append, length_append, IH.
  simpl. lia.
Qed.

(** ** Trimming *)

Lemma dropPrefix_Some (w s r : string) :
  dropPrefix w s = Some r <-> s = w +:+ r.
Proof.
  revert s. induction w as [|a w IH]; intros s.
  - simpl. change ("" +:+ r) with r. split; [now intros [= ->]|now intros ->].
  - rewrite append_String. destruct s as [|b s]; simpl.
    + split; discriminate.
    + destruct (Ascii.eqb_spec a b) as [->|N].
      * rewrite IH. split; [now intros ->|now intros [= ->]].
      * split; [discriminate|]. intros [= E _]. now destruct N.
Qed.

Lemma stripOne_Some (table : list string) (s r : string) :
  stripOne table s = Some r -> exists w, w ∈ table /\ s = w +:+ r.
Proof.
  induction table as [|w table IH]; simpl; [discriminate|].
  destruct (dropPrefix w s) as [r'|] eqn:D.
  - intros [= ->]. exists w. split; [apply list_elem_of_here|].
    now apply dropPrefix_Some.
  - intros E. destruct (IH E) as (w' & In & ->).
    exists w'. split; [now apply list_elem_of_further|reflexivity].
Qed.

Lemma stripOne_None (table : list string) (s : string) :
  stripOne table s = None -> forall w r, w ∈ table -> s <> w +:+ r.
Proof.
  induction table as [|w table IH]; simpl; intros E w' r In.
  - now apply elem_of_nil in In.
  - destruct (dropPrefix w s) as [r'|] eqn:D; [discriminate E|].
    apply elem_of_cons in In. destruct In as [->|In].
    + intros S. apply dropPrefix_Some in S. congruence.
    + now apply IH.
Qed.

Lemma concatOf_snoc (table : list string) (s w : string) :
  concatOf table s -> w ∈ table -> concatOf table (s +:+ w).
Proof.
  induction 1 as [|w' s In _ IH]; intros Hw.
  - change ("" +:+ w) with w. rewrite <- (append_nil_r w).
    now constructor; [|constructor].
  - rewrite append_assoc. constructor; [exact In|now apply IH].
Qed.

Lemma concatOf_reverse (table : list string) (s : string) :
  concatOf (List.map reverseString table) s -> concatOf table (reverseString s).
Proof.
  induction 1 as [|w s In _ IH]; [constructor|].
  rewrite reverseString_append. apply concatOf_snoc; [exact IH|].
  apply list_elem_of_In, in_map_iff in In. destruct In as (w' & <- & In).
  rewrite reverseString_involutive. now apply list_elem_of_In.
Qed.

(** With fuel for the whole string, [stripAll] takes off a run of characters
    of the table and leaves a string that starts with none. *)
Lemma stripAll_spec (table : list string) :
  Forall (fun w => w <> EmptyString) table ->
  forall fuel s,
    String.length s <= fuel ->
    exists run,
      s = run +:+ stripAll table fuel s /\
      concatOf table run /\
      stripOne table (stripAll table fuel s) = None.
Proof.
  intros NE. induction fuel as [|fuel IH]; intros s L.
  - destruct s; [|simpl in L; lia]. exists "". simpl.
    split; [reflexivity|]. split; [constructor|].
    clear L. induction NE as [|w table Hw _ IHt]; [reflexivity|].
    simpl. destruct w; [now destruct Hw|exact IHt].
  - simpl. destruct (stripOne table s) as [r|] eqn:E.
    + destruct (stripOne_Some _ _ _ E) as (w & In & ->).
      assert (w <> "") as Hw by exact (proj1 (List.Forall_forall _ _) NE w
                                          (proj1 (list_elem_of_In _ _) In)).
      rewrite length_append in L.
      destruct (IH r) as (run & Er & C & N).
      { destruct w; [now destruct Hw|simpl in L; lia]. }
      exists (w +:+ run). rewrite append_assoc, <- Er.
      split; [reflexivity|]. split; [now constructor|exact N].
    + exists "". split; [reflexivity|]. split; [constructor|exact E].
Qed.

Lemma WHITE_SPACE_nonempty : Forall (fun w => w <> EmptyString) WHITE_SPACE.
Proof. repeat constructor; discriminate. Qed.

Lemma WHITE_SPACE_reversed_nonempty :
  Forall (fun w => w <> EmptyString) (List.map reverseString WHITE_SPACE).
Proof. repeat constructor; discriminate. Qed.

Lemma trimStart_spec (s : string) :
  exists before,
    s = before +:+ trimStart s /\
    concatOf WHITE_SPACE before /\
    (forall w rest, w ∈ WHITE_SPACE -> trimStart s <> w +:+ rest).
Proof.
  destruct (stripAll_spec WHITE_SPACE WHITE_SPACE_nonempty (String.length s) s)
    as (run & E & C & N); [lia|].
  exists run. split; [exact E|]. split; [exact C|].
  exact (stripOne_None _ _ N).
Qed.

Lemma trimEnd_spec (s : string) :
  exists after,
    s = trimEnd s +:+ after /\
    concatOf WHITE_SPACE after /\
    (forall w front, w ∈ WHITE_SPACE -> trimEnd s <> front +:+ w).
Proof.
  destruct (stripAll_spec (List.map reverseString WHITE_SPACE)
              WHITE_SPACE_reversed_nonempty (String.length s) (reverseString s))
    as (run & E & C & N); [rewrite length_reverseString; lia|].
  exists (reverseString run). split; [|split].
  - unfold trimEnd. rewrite <- reverseString_append, <- E.
    now rewrite reverseString_involutive.
  - now apply concatOf_reverse.
  - intros w front In Ew. unfold trimEnd in Ew.
    apply (f_equal reverseString) in Ew.
    rewrite reverseString_involutive, reverseString_append in Ew.
    apply (stripOne_None _ _ N (reverseString w) (reverseString front)); [|exact Ew].
    apply list_elem_of_In, in_map. now apply list_elem_of_In.
Qed.

(** [trim] does what the specification of the language says of it. *)
Lemma trim_trimmedFrom (piece : string) : trimmedFrom piece (trim piece).
Proof.
  destruct (trimStart_spec piece) as (before & Eb & Cb & Nb).
  destruct (trimEnd_spec (trimStart piece)) as (after & Ea & Ca & Na).
  exists before, after. unfold trim.
  split; [now rewrite <- Ea|]. split; [exact Cb|]. split; [exact Ca|].
  split; [|exact Na].
  intros w rest In Ew. apply (Nb w (rest +:+ after) In).
  now rewrite Ea, Ew, append_assoc.
Qed.

Lemma toUpperChar_3 (c : ascii) :
  toUpperChar c = "3"%char -> c = "3"%char.
Proof.
  destruct c as [[] [] [] [] [] [] [] []]; vm_compute; intros E;
    first [ discriminate E | reflexivity ].
Qed.

(** The identifiers that equal "W3" up to case are the two spellings. *)
Lemma caseInsensitiveEq_W3 (s : string) :
  caseInsensitiveEq s "W3" <-> s ∈ ["W3"; "w3"].
Proof.
  rewrite caseInsensitiveEq_upper. split.
  - destruct s as [|c1 [|c2 [|c3 s]]]; simpl; intros E; try discriminate E.
    injection E as E1 E2.
    destruct (toUpperChar_W _ E1); rewrite (toUpperChar_3 _ E2); subst;
      repeat (first [ apply list_elem_of_here | apply list_elem_of_further ]).
  - rewrite !elem_of_cons, elem_of_nil.
    intros [-> | [-> | []]]; reflexivity.
Qed.

Section Properties.

Context `{Collaborators}.

(** ** Projection setup *)

Lemma applyCenter_kind center proj : kind (applyCenter center proj) = kind proj.
Proof.
  unfold applyCenter.
  repeat (case_match; simpl; try reflexivity).
Qed.

Lemma applyCenter_scale center proj : scale (applyCenter center proj) = scale proj.
Proof.
  unfold applyCenter.
  repeat (case_match; simpl; try reflexivity).
Qed.

Lemma applyCenter_translate center proj :
  translate (applyCenter center proj) = translate proj.
Proof.
  unfold applyCenter.
  repeat (case_match; simpl; try reflexivity).
Qed.

Lemma selectProjection_WB projectionType :
  caseInsensitiveEq projectionType "WB" ->
  selectProjection projectionType =
    Ok (setTranslate (WIDTH / 2, HEIGHT / 2)%float
          (setScale (WIDTH / 10)%float geoWaterman)).
Proof.
  intros E%caseInsensitiveEq_upper. unfold selectProjection.
  rewrite E. reflexivity.
Qed.

Lemma selectProjection_W3 projectionType :
  caseInsensitiveEq projectionType "W3" ->
  selectProjection projectionType =
    Ok (setTranslate (WIDTH / 2, HEIGHT / 2)%float
          (setScale (WIDTH / 6)%float geoWinkel3)).
Proof.
  intros E%caseInsensitiveEq_upper. unfold selectProjection.
  rewrite E. reflexivity.
Qed.

Lemma selectProjection_other projectionType :
  ~ caseInsensitiveEq projectionType "WB" ->
  ~ caseInsensitiveEq projectionType "W3" ->
  selectProjection projectionType =
    Throw (UnsupportedProjectionError projectionType).
Proof.
  intros NB N3. unfold selectProjection.
  destruct (String.eqb_spec (toUpperCase projectionType) "WB") as [E|_].
  { exfalso. apply NB, caseInsensitiveEq_upper. exact E. }
  destruct (String.eqb_spec (toUpperCase projectionType) "W3") as [E|_].
  { exfalso. apply N3, caseInsensitiveEq_upper. exact E. }
  reflexivity.
Qed.

(** Claim C1. Whatever the centre, an identifier equal to "WB" up to case
    sets up a Waterman butterfly projection of scale WIDTH/10 = 120, and one
    equal to "W3" up to case a Winkel Tripel projection of scale
    WIDTH/6 = 200; both are translated to the canvas centre (600, 400). *)
Theorem setupProjection_supported (projectionType : string) (center : option string) :
  (caseInsensitiveEq projectionType "WB" ->
   exists proj,
     setupProjection projectionType center = Ok proj /\
     kind proj = Waterman /\
     scale proj = (WIDTH / 10)%float /\ scale proj = 120%float /\
     translate proj = (600, 400)%float) /\
  (caseInsensitiveEq projectionType "W3" ->
   exists proj,
     setupProjection projectionType center = Ok proj /\
     kind proj = Winkel3 /\
     scale proj = (WIDTH / 6)%float /\ scale proj = 200%float /\
     translate proj = (600, 400)%float).
Proof.
  split; intros E; unfold setupProjection.
  - rewrite (selectProjection_WB _ E). simpl.
    eexists; split; [reflexivity|].
    rewrite applyCenter_kind, applyCenter_scale, applyCenter_translate.
    repeat split; reflexivity.
  - rewrite (selectProjection_W3 _ E). simpl.
    eexists; split; [reflexivity|].
    rewrite applyCenter_kind, applyCenter_scale, applyCenter_translate.
    repeat split; reflexivity.
Qed.

(** ** The asynchronous steps *)

Lemma bind_sync_Ok {A B} (a : A) (f : A -> Async B) (t : list Event) :
  (sync (Ok a) ≫= f) t = f a t.
Proof. reflexivity. Qed.

Lemma bind_sync_Throw {A B} (e : JsError) (f : A -> Async B) (t : list Event) :
  (sync (Throw e) ≫= f) t = (Throw e, t).
Proof. reflexivity. Qed.

Lemma bind_run {A B} (m : Async A) (f : A -> Async B) (t : list Event) :
  (m ≫= f) t =
    match m t with
    | (Ok a, t') => f a t'
    | (Throw e, t') => (Throw e, t')
    end.
Proof. reflexivity. Qed.

Lemma mapProjection_setup_fails projection center bounds e :
  setupProjection projection center = Throw e ->
  mapProjection projection center bounds = Throw e.
Proof. intros E. unfold mapProjection. rewrite E. reflexivity. Qed.

Lemma buildDocument_projection_fails options t e :
  mapProjection (default "WB" (opt_projection options))
    (opt_center options) (opt_bounds options) = Throw e ->
  buildDocument options t = (Throw e, t).
Proof. intros E. unfold buildDocument. rewrite E. reflexivity. Qed.

Lemma generateMap_build_fails options t t' e :
  buildDocument options t = (Throw e, t') ->
  generateMap options t = (Throw e, t').
Proof. intros E. unfold generateMap. rewrite bind_run, E. reflexivity. Qed.

(** Claim C2. An identifier that equals neither "WB" nor "W3" up to case makes
    projection setup throw the error whose message is
    "Unsupported projection type: " followed by the identifier as given, so no
    projection is returned; a render with that identifier throws the same
    error before any dataset is loaded or any file written. *)
Theorem setupProjection_unsupported (projectionType : string) :
  ~ caseInsensitiveEq projectionType "WB" ->
  ~ caseInsensitiveEq projectionType "W3" ->
  (forall center,
     setupProjection projectionType center =
       Throw (UnsupportedProjectionError projectionType)) /\
  message (UnsupportedProjectionError projectionType) =
    "Unsupported projection type: " +:+ projectionType /\
  (forall options trace,
     opt_projection options = Some projectionType ->
     generateMap options trace =
       (Throw (UnsupportedProjectionError projectionType), trace)).
Proof.
  intros NB N3.
  assert (S : forall center, setupProjection projectionType center =
                             Throw (UnsupportedProjectionError projectionType)).
  { intros center. unfold setupProjection.
    rewrite (selectProjection_other _ NB N3). reflexivity. }
  split; [exact S|]. split; [reflexivity|].
  intros options trace E.
  apply generateMap_build_fails, buildDocument_projection_fails.
  rewrite E. simpl. apply mapProjection_setup_fails, S.
Qed.

(** ** The centre *)

Lemma applyCenter_skipped (center : string) (proj : Projection) :
  isNaN (map Number (split "," center) !! 0%nat) = true \/
  isNaN (map Number (split "," center) !! 1%nat) = true ->
  applyCenter (Some center) proj = proj.
Proof.
  intros E. unfold applyCenter.
  destruct (truthy center); [|reflexivity].
  simpl. destruct E as [-> | ->]; simpl; [reflexivity|].
  rewrite andb_false_r. reflexivity.
Qed.

Lemma applyCenter_rotates (center : string) (proj : Projection)
    (lat lon : float) (extra : list float) :
  map Number (split "," center) = lat :: lon :: extra ->
  PrimFloat.is_nan lat = false ->
  PrimFloat.is_nan lon = false ->
  applyCenter (Some center) proj = setRotate [lon; lat; 0%float] proj.
Proof.
  intros E Hlat Hlon. unfold applyCenter.
  rewrite (split_two_truthy ","%char).
  2:{ rewrite <- (length_map Number), E. simpl. lia. }
  rewrite E. simpl. rewrite Hlat, Hlon. reflexivity.
Qed.

Lemma setupProjection_selected projectionType center p :
  selectProjection projectionType = Ok p ->
  setupProjection projectionType center = Ok (applyCenter center p).
Proof. intros E. unfold setupProjection. rewrite E. reflexivity. Qed.

Lemma setupProjection_None projectionType :
  setupProjection projectionType None = selectProjection projectionType.
Proof.
  unfold setupProjection. destruct (selectProjection projectionType); reflexivity.
Qed.

Lemma selectProjection_rotate projectionType p :
  selectProjection projectionType = Ok p -> rotate p = defaultRotate (kind p).
Proof.
  unfold selectProjection. intros Sel.
  repeat case_match; try discriminate Sel; injection Sel as <-; reflexivity.
Qed.

Lemma selectProjection_supported projectionType :
  caseInsensitiveEq projectionType "WB" \/ caseInsensitiveEq projectionType "W3" ->
  exists proj0, selectProjection projectionType = Ok proj0.
Proof.
  intros [E|E]; eexists.
  - exact (selectProjection_WB _ E).
  - exact (selectProjection_W3 _ E).
Qed.

(** Claim C5. A centre one of whose two components is missing or converts to
    NaN leaves projection setup as it is without a centre: the rotation step
    is skipped and no error is thrown over it. A centre whose two components
    convert to numbers [lat] and [lon] makes setup rotate its projection by
    [[lon; lat; 0]]. Without a centre the rotation is the one the library
    gave the projection. So for an identifier equal to "WB" or "W3" up to
    case, setup with a malformed centre returns a projection whose rotation
    is the default one, and setup with a well-formed centre returns one whose
    rotation is [[lon; lat; 0]]. *)
Theorem setupProjection_center (projectionType center : string) :
  (isNaN (map Number (split "," center) !! 0%nat) = true \/
   isNaN (map Number (split "," center) !! 1%nat) = true ->
   setupProjection projectionType (Some center) =
     setupProjection projectionType None) /\
  (forall lat lon,
     map Number (split "," center) = [lat; lon] ->
     PrimFloat.is_nan lat = false ->
     PrimFloat.is_nan lon = false ->
     setupProjection projectionType (Some center) =
       (proj ← setupProjection projectionType None;
        mret (setRotate [lon; lat; 0%float] proj))) /\
  (forall proj0,
     setupProjection projectionType None = Ok proj0 ->
     rotate proj0 = defaultRotate (kind proj0)) /\
  (caseInsensitiveEq projectionType "WB" \/ caseInsensitiveEq projectionType "W3" ->
   isNaN (map Number (split "," center) !! 0%nat) = true \/
   isNaN (map Number (split "," center) !! 1%nat) = true ->
   exists proj0,
     setupProjection projectionType (Some center) = Ok proj0 /\
     rotate proj0 = defaultRotate (kind proj0)) /\
  (caseInsensitiveEq projectionType "WB" \/ caseInsensitiveEq projectionType "W3" ->
   forall lat lon,
     map Number (split "," center) = [lat; lon] ->
     PrimFloat.is_nan lat = false ->
     PrimFloat.is_nan lon = false ->
     exists proj,
       setupProjection projectionType (Some center) = Ok proj /\
       rotate proj = [lon; lat; 0%float]).
Proof.
  rewrite setupProjection_None.
  split; [|split; [|split; [|split]]].
  - intros Bad.
    destruct (selectProjection projectionType) as [p|e] eqn:Sel.
    + rewrite (setupProjection_selected _ _ _ Sel).
      now rewrite (applyCenter_skipped _ _ Bad).
    + unfold setupProjection. rewrite Sel. reflexivity.
  - intros lat lon E Hlat Hlon.
    destruct (selectProjection projectionType) as [p|e] eqn:Sel.
    + rewrite (setupProjection_selected _ _ _ Sel).
      now rewrite (applyCenter_rotates _ _ _ _ _ E Hlat Hlon).
    + unfold setupProjection. rewrite Sel. reflexivity.
  - intros proj0 Sel. exact (selectProjection_rotate _ _ Sel).
  - intros Sup Bad.
    destruct (selectProjection_supported _ Sup) as (proj0 & Sel).
    exists proj0. split.
    + rewrite (setupProjection_selected _ _ _ Sel).
      now rewrite (applyCenter_skipped _ _ Bad).
    + exact (selectProjection_rotate _ _ Sel).
  - intros Sup lat lon E Hlat Hlon.
    destruct (selectProjection_supported _ Sup) as (proj0 & Sel).
    exists (setRotate [lon; lat; 0%float] proj0). split; [|reflexivity].
    rewrite (setupProjection_selected _ _ _ Sel).
    now rewrite (applyCenter_rotates _ _ _ _ _ E Hlat Hlon).
Qed.

(** ** Bounds *)

Lemma applyCenter_setters center k t p :
  applyCenter center (setTranslate t (setScale k p)) =
    setTranslate t (setScale k (applyCenter center p)).
Proof.
  unfold applyCenter. repeat case_match; reflexivity.
Qed.

Lemma kind_setTranslate_setScale k t p :
  kind (setTranslate t (setScale k p)) = kind p.
Proof. reflexivity. Qed.

(** What setup returns is the library's fresh projection of its kind, with
    the centre applied, and setup's scale and translate set. *)
Lemma setupProjection_fresh projectionType center proj0 :
  setupProjection projectionType center = Ok proj0 ->
  exists k t,
    proj0 = setTranslate t (setScale k (applyCenter center (newProjection (kind proj0)))).
Proof.
  unfold setupProjection, selectProjection. intros S.
  repeat case_match; try discriminate S; injection S as <-;
    rewrite applyCenter_setters, kind_setTranslate_setScale, applyCenter_kind;
    do 2 eexists; reflexivity.
Qed.

Lemma applyBounds_first_four (projection : Projection) (bounds : string)
    (minLat maxLat minLon maxLon : float) (extra : list float) :
  map Number (split "," bounds) = minLat :: maxLat :: minLon :: maxLon :: extra ->
  PrimFloat.is_nan minLat = false ->
  PrimFloat.is_nan maxLat = false ->
  PrimFloat.is_nan minLon = false ->
  PrimFloat.is_nan maxLon = false ->
  applyBounds projection bounds =
    Ok (fitExtent EXTENT (boundingBox minLat maxLat minLon maxLon) projection).
Proof.
  intros E H0 H1 H2 H3. unfold applyBounds. rewrite E. simpl.
  rewrite H0, H1, H2, H3. reflexivity.
Qed.

Lemma applyBounds_rejects (projection : Projection) (bounds : string) (i : nat) :
  i < 4 ->
  isNaN (map Number (split "," bounds) !! i) = true ->
  applyBounds projection bounds = Throw InvalidBoundsError.
Proof.
  intros Hi E. unfold applyBounds.
  destruct i as [|[|[|[|i]]]]; [| | | |lia];
    cbn [existsb]; rewrite E, ?orb_true_r; reflexivity.
Qed.

Lemma mapProjection_bounds projection center bounds proj0 :
  setupProjection projection center = Ok proj0 ->
  truthy bounds = true ->
  mapProjection projection center (Some bounds) = applyBounds proj0 bounds.
Proof.
  intros E T. unfold mapProjection. rewrite E. simpl. rewrite T. reflexivity.
Qed.

(** Claim C3. When the four components of the bounds convert to numbers
    [minLat], [maxLat], [minLon] and [maxLon], bounds fitting calls
    [fitExtent] with the extent [[0,0],[1200,800]] on the polygon whose one
    ring is (minLon,minLat), (minLon,maxLat), (maxLon,maxLat),
    (maxLon,minLat), (minLon,minLat). In a render the call is made on the
    projection that setup returned, after setup's own scale and translate, and
    nothing is set afterwards: the projection the map is drawn with is the
    fitted one. When [fitExtent] discards the scale and translate it finds, as
    d3-geo's does, the fitted projection is the one that fitting gives with
    setup's scale and translate never set. *)
Theorem applyBounds_fits (bounds : string) (minLat maxLat minLon maxLon : float) :
  map Number (split "," bounds) = [minLat; maxLat; minLon; maxLon] ->
  PrimFloat.is_nan minLat = false ->
  PrimFloat.is_nan maxLat = false ->
  PrimFloat.is_nan minLon = false ->
  PrimFloat.is_nan maxLon = false ->
  (forall projection,
     applyBounds projection bounds =
       Ok (fitExtent ((0, 0), (1200, 800))%float
             (Feature (Polygon [[ (minLon, minLat);
                                  (minLon, maxLat);
                                  (maxLon, maxLat);
                                  (maxLon, minLat);
                                  (minLon, minLat) ]]))
             projection)) /\
  (forall projectionType center proj0,
     setupProjection projectionType center = Ok proj0 ->
     mapProjection projectionType center (Some bounds) =
       Ok (fitExtent EXTENT (boundingBox minLat maxLat minLon maxLon) proj0)) /\
  ((forall extent object p k t,
      fitExtent extent object (setTranslate t (setScale k p)) =
        fitExtent extent object p) ->
   forall projectionType center proj0,
     setupProjection projectionType center = Ok proj0 ->
     mapProjection projectionType center (Some bounds) =
       Ok (fitExtent EXTENT (boundingBox minLat maxLat minLon maxLon)
             (applyCenter center (newProjection (kind proj0))))).
Proof.
  intros E H0 H1 H2 H3.
  assert (T : truthy bounds = true).
  { apply (split_two_truthy ","%char).
    rewrite <- (length_map Number), E. simpl. lia. }
  split; [|split].
  - intros projection.
    exact (applyBounds_first_four projection _ _ _ _ _ _ E H0 H1 H2 H3).
  - intros projectionType center proj0 S.
    rewrite (mapProjection_bounds _ _ _ _ S T).
    exact (applyBounds_first_four proj0 _ _ _ _ _ _ E H0 H1 H2 H3).
  - intros Discards projectionType center proj0 S.
    rewrite (mapProjection_bounds _ _ _ _ S T).
    rewrite (applyBounds_first_four proj0 _ _ _ _ _ _ E H0 H1 H2 H3).
    destruct (setupProjection_fresh _ _ _ S) as (k & t & Fresh).
    rewrite Fresh at 1. rewrite Discards. reflexivity.
Qed.


(** Claim C10. Components past those expected are ignored. Bounds whose first
    four components convert to numbers are fitted on those four, whatever
    follows them, and a centre whose first two components convert to numbers
    rotates by those two; text added after one more comma changes neither
    the outcome of bounds fitting nor that of projection setup. *)
Theorem extra_components_ignored :
  (forall projection bounds minLat maxLat minLon maxLon extra,
     map Number (split "," bounds) = minLat :: maxLat :: minLon :: maxLon :: extra ->
     PrimFloat.is_nan minLat = false ->
     PrimFloat.is_nan maxLat = false ->
     PrimFloat.is_nan minLon = false ->
     PrimFloat.is_nan maxLon = false ->
     applyBounds projection bounds =
       Ok (fitExtent EXTENT (boundingBox minLat maxLat minLon maxLon) projection)) /\
  (forall projectionType center proj0 lat lon extra,
     setupProjection projectionType None = Ok proj0 ->
     map Number (split "," center) = lat :: lon :: extra ->
     PrimFloat.is_nan lat = false ->
     PrimFloat.is_nan lon = false ->
     setupProjection projectionType (Some center) =
       Ok (setRotate [lon; lat; 0%float] proj0)) /\
  (forall projection bounds rest,
     4 <= length (split "," bounds) ->
     applyBounds projection (bounds +:+ "," +:+ rest) =
       applyBounds projection bounds) /\
  (forall projectionType center rest,
     2 <= length (split "," center) ->
     setupProjection projectionType (Some (center +:+ "," +:+ rest)) =
       setupProjection projectionType (Some center)).
Proof.
  split; [|split; [|split]].
  - intros. now apply applyBounds_first_four with (extra := extra).
  - intros projectionType center proj0 lat lon extra S E Hlat Hlon.
    rewrite setupProjection_None in S.
    rewrite (setupProjection_selected _ _ _ S).
    now rewrite (applyCenter_rotates _ _ _ _ _ E Hlat Hlon).
  - intros projection bounds rest L. unfold applyBounds.
    rewrite split_append_comma, map_app.
    rewrite <- (length_map Number) in L.
    rewrite !lookup_app_l by lia. reflexivity.
  - intros projectionType center rest L. unfold setupProjection.
    destruct (selectProjection projectionType) as [p|e]; [|reflexivity].
    change (Ok (applyCenter (Some (center +:+ "," +:+ rest)) p) =
            Ok (applyCenter (Some center) p)).
    f_equal. unfold applyCenter.
    rewrite (split_two_truthy _ _ L).
    rewrite (split_two_truthy ","%char (center +:+ "," +:+ rest)).
    2:{ rewrite split_append_comma, length_app. lia. }
    rewrite split_append_comma, map_app.
    rewrite <- (length_map Number) in L.
    rewrite !lookup_app_l by lia. reflexivity.
Qed.

(** ** Styles *)

Lemma mergedStyles_lookup (options : Options) (k : string) :
  mergedStyles options !! k =
    match default ∅ (opt_styles options) !! k with
    | Some v => Some v
    | None => DEFAULT_STYLES !! k
    end.
Proof.
  unfold mergedStyles, spread. rewrite lookup_union.
  destruct (default ∅ (opt_styles options) !! k), (DEFAULT_STYLES !! k);
    reflexivity.
Qed.

Lemma DEFAULT_STYLES_lookup (k : string) :
  DEFAULT_STYLES !! k =
    assoc k [ ("linethickness", "1"); ("linecolor", "black");
              ("outlinethickness", "0.5"); ("outlinecolor", "black");
              ("showgraticules", "true"); ("background", "white") ].
Proof.
  unfold DEFAULT_STYLES. cbn [list_to_map foldr uncurry assoc fst snd].
  repeat match goal with
  | |- context [String.eqb ?n k] =>
      destruct (String.eqb_spec n k) as [<-|?];
        [ reflexivity | rewrite lookup_insert_ne by assumption ]
  end.
  apply lookup_empty.
Qed.

Lemma backgroundElement_attributes (styles : gmap string string) :
  getAttribute "fill" (backgroundElement styles) = styles !! "background" /\
  getAttribute "stroke" (backgroundElement styles) = styles !! "outlinecolor" /\
  getAttribute "stroke-width" (backgroundElement styles) =
    styles !! "outlinethickness".
Proof.
  unfold backgroundElement, getAttribute.
  destruct (styles !! "background"), (styles !! "outlinecolor"),
    (styles !! "outlinethickness"); repeat split; reflexivity.
Qed.

Lemma datasetElement_attributes proj (styles : gmap string string) mapData :
  getAttribute "stroke" (datasetElement proj styles mapData) =
    styles !! "linecolor" /\
  getAttribute "stroke-width" (datasetElement proj styles mapData) =
    styles !! "linethickness".
Proof.
  unfold datasetElement, getAttribute.
  destruct (geoPath proj (Dataset mapData)), (styles !! "linecolor"),
    (styles !! "linethickness"); repeat split; reflexivity.
Qed.

(** Claim C7. The defaults are the six pairs of [DEFAULT_STYLES]; in the
    merged styles a key the overrides give has the overrides' value, and any
    other key has its default. The merged values are the ones drawn with. *)
Theorem styles_merge (options : Options) :
  (forall k,
     DEFAULT_STYLES !! k =
       assoc k [ ("linethickness", "1"); ("linecolor", "black");
                 ("outlinethickness", "0.5"); ("outlinecolor", "black");
                 ("showgraticules", "true"); ("background", "white") ]) /\
  (forall k v,
     default ∅ (opt_styles options) !! k = Some v ->
     mergedStyles options !! k = Some v) /\
  (forall k,
     default ∅ (opt_styles options) !! k = None ->
     mergedStyles options !! k = DEFAULT_STYLES !! k) /\
  (getAttribute "fill" (backgroundElement (mergedStyles options)) =
     mergedStyles options !! "background" /\
   getAttribute "stroke" (backgroundElement (mergedStyles options)) =
     mergedStyles options !! "outlinecolor" /\
   getAttribute "stroke-width" (backgroundElement (mergedStyles options)) =
     mergedStyles options !! "outlinethickness") /\
  (forall proj mapData,
     getAttribute "stroke" (datasetElement proj (mergedStyles options) mapData) =
       mergedStyles options !! "linecolor" /\
     getAttribute "stroke-width"
       (datasetElement proj (mergedStyles options) mapData) =
       mergedStyles options !! "linethickness").
Proof.
  split; [exact DEFAULT_STYLES_lookup|].
  split; [|split; [|split]].
  - intros k v E. rewrite mergedStyles_lookup, E. reflexivity.
  - intros k E. rewrite mergedStyles_lookup, E. reflexivity.
  - apply backgroundElement_attributes.
  - intros proj mapData. apply datasetElement_attributes.
Qed.

(** ** The document *)

Lemma drawDatasets_ok proj styles datasets geos :
  allLoad datasets geos ->
  forall svg t,
  exists doc,
    drawDatasets proj styles datasets svg t = (Ok doc, t ++ map Load datasets) /\
    children doc = children svg ++ map (datasetElement proj styles) geos.
Proof.
  induction 1 as [|dataset mapData datasets geos L _ IH]; intros svg t.
  - exists svg. simpl. rewrite !app_nil_r. split; reflexivity.
  - destruct (IH (append (datasetElement proj styles mapData) svg)
                 (t ++ [Load dataset])) as (doc & E & C).
    exists doc. split.
    + cbn [drawDatasets]. rewrite bind_run. unfold await at 1. rewrite L.
      rewrite E. cbn [map]. rewrite <- app_assoc. reflexivity.
    + rewrite C. cbn [append children map]. rewrite <- app_assoc. reflexivity.
Qed.

Lemma drawDatasets_fails proj styles before dataset after geos e :
  allLoad before geos ->
  loadDataset dataset = Throw e ->
  forall svg t,
    drawDatasets proj styles (before ++ dataset :: after) svg t =
      (Throw e, t ++ map Load before ++ [Load dataset]).
Proof.
  induction 1 as [|d mapData before geos L _ IH]; intros F svg t.
  - cbn [app drawDatasets map]. rewrite bind_run. unfold await at 1.
    rewrite F. reflexivity.
  - cbn [app drawDatasets map]. rewrite bind_run. unfold await at 1.
    rewrite L. rewrite (IH F). rewrite <- app_assoc. reflexivity.
Qed.

(** The merged styles always have the key: the read of line 71 cannot fail. *)
Lemma graticulesEnabled_merged (options : Options) :
  exists v,
    mergedStyles options !! "showgraticules" = Some v /\
    v = default "true" (default ∅ (opt_styles options) !! "showgraticules") /\
    graticulesEnabled (mergedStyles options) =
      Ok (String.eqb (toLowerCase v) "true").
Proof.
  unfold graticulesEnabled. rewrite mergedStyles_lookup.
  destruct (default ∅ (opt_styles options) !! "showgraticules") as [v|].
  - exists v. repeat split; reflexivity.
  - exists "true". repeat split; reflexivity.
Qed.

Lemma buildDocument_ok options proj geos t :
  mapProjection (default "WB" (opt_projection options))
    (opt_center options) (opt_bounds options) = Ok proj ->
  allLoad (parseDatasets (default "50mcoastline" (opt_mapdata options))) geos ->
  exists doc v,
    buildDocument options t =
      (Ok doc,
       t ++ map Load (parseDatasets (default "50mcoastline" (opt_mapdata options)))) /\
    mergedStyles options !! "showgraticules" = Some v /\
    children doc =
      children (createSVG WIDTH HEIGHT)
        ++ [defsElement proj; backgroundElement (mergedStyles options)]
        ++ (if String.eqb (toLowerCase v) "true"
            then [graticuleElement proj] else [])
        ++ map (datasetElement proj (mergedStyles options)) geos.
Proof.
  intros P L.
  destruct (graticulesEnabled_merged options) as (v & Ev & _ & G).
  unfold buildDocument. rewrite P, bind_sync_Ok, G, bind_sync_Ok.
  match goal with
  | |- context [drawDatasets _ _ _ ?svg t] =>
      destruct (drawDatasets_ok proj (mergedStyles options) _ _ L svg t)
        as (doc & E & C)
  end.
  exists doc, v. split; [exact E|]. split; [exact Ev|].
  rewrite C. destruct (String.eqb (toLowerCase v) "true");
    cbn [append attr children]; rewrite <- ?app_assoc; reflexivity.
Qed.

Lemma generateMap_built options t doc t' :
  buildDocument options t = (Ok doc, t') ->
  generateMap options t =
    (match writeFile (default "map.svg" (opt_output options)) (svgString doc) with
     | Ok _ => Ok (svgString doc)
     | Throw e => Throw e
     end,
     t' ++ [WriteFile (default "map.svg" (opt_output options)) (svgString doc)]).
Proof.
  intros E. unfold generateMap. rewrite bind_run, E, bind_run.
  unfold await. destruct (writeFile _ _); reflexivity.
Qed.

Lemma filter_map_none {A B} (f : B -> bool) (g : A -> B) (l : list A) :
  (forall x, f (g x) = false) -> List.filter f (map g l) = [].
Proof.
  intros F. induction l as [|x l IH]; simpl; [reflexivity|].
  now rewrite F.
Qed.

Lemma filter_map_all {A B} (f : B -> bool) (g : A -> B) (l : list A) :
  (forall x, f (g x) = true) -> List.filter f (map g l) = map g l.
Proof.
  intros F. induction l as [|x l IH]; simpl; [reflexivity|].
  now rewrite F, IH.
Qed.

Lemma datasetElement_datum proj styles mapData :
  datum (datasetElement proj styles mapData) = Some (Dataset mapData) /\
  tag (datasetElement proj styles mapData) = "path".
Proof. split; reflexivity. Qed.

Lemma graticuleElement_datum proj :
  datum (graticuleElement proj) = Some (Graticule [15; 15]%float) /\
  tag (graticuleElement proj) = "path".
Proof. split; reflexivity. Qed.

Section Document.

(** d3-node's [createSVG] returns a new [svg] element, with no children yet. *)
Hypothesis createSVG_empty : forall w h, children (createSVG w h) = [].

Lemma buildDocument_paths options proj geos t :
  mapProjection (default "WB" (opt_projection options))
    (opt_center options) (opt_bounds options) = Ok proj ->
  allLoad (parseDatasets (default "50mcoastline" (opt_mapdata options))) geos ->
  exists doc v,
    buildDocument options t =
      (Ok doc,
       t ++ map Load (parseDatasets (default "50mcoastline" (opt_mapdata options)))) /\
    mergedStyles options !! "showgraticules" = Some v /\
    datasetPaths doc = map (datasetElement proj (mergedStyles options)) geos /\
    graticulePaths doc =
      (if String.eqb (toLowerCase v) "true" then [graticuleElement proj] else []) /\
    defsElement proj ∈ children doc.
Proof.
  intros P L.
  destruct (buildDocument_ok options proj geos t P L) as (doc & v & E & Ev & C).
  exists doc, v. split; [exact E|]. split; [exact Ev|].
  rewrite createSVG_empty in C. cbn [app] in C.
  unfold datasetPaths, graticulePaths. rewrite C.
  split; [|split].
  - cbn [List.filter]. rewrite List.filter_app.
    rewrite filter_map_all by reflexivity.
    destruct (String.eqb (toLowerCase v) "true"); reflexivity.
  - cbn [List.filter]. rewrite List.filter_app.
    rewrite filter_map_none by reflexivity.
    destruct (String.eqb (toLowerCase v) "true"); reflexivity.
  - apply list_elem_of_here.
Qed.

(** Claim C6. The dataset list is the mapdata string split on commas, each
    piece trimmed: the pieces hold no comma and give the string back when
    joined with commas, and each identifier is its piece without the white
    space at its two ends. When every dataset resolves, the datasets are
    loaded one after the other in list order, and the dataset paths of the
    document are one per identifier, in that order, each bound to the
    geometry its identifier resolved to; the serialized document is then
    written. When a dataset fails to load, the render throws the loader's
    error, having loaded the earlier datasets and nothing after, and writes
    no file. *)
Theorem datasets_drawn_in_order (options : Options) (mapdata : string)
    (proj : Projection) (trace : list Event) :
  default "50mcoastline" (opt_mapdata options) = mapdata ->
  mapProjection (default "WB" (opt_projection options))
    (opt_center options) (opt_bounds options) = Ok proj ->
  (String.concat "," (split "," mapdata) = mapdata /\
   Forall (fun piece => countChar "," piece = 0) (split "," mapdata) /\
   Forall2 trimmedFrom (split "," mapdata) (map trim (split "," mapdata))) /\
  (forall geos,
     allLoad (map trim (split "," mapdata)) geos ->
     exists doc,
       buildDocument options trace =
         (Ok doc, trace ++ map Load (map trim (split "," mapdata))) /\
       datasetPaths doc = map (datasetElement proj (mergedStyles options)) geos /\
       map datum (datasetPaths doc) = map (fun g => Some (Dataset g)) geos /\
       length (datasetPaths doc) = length (split "," mapdata) /\
       generateMap options trace =
         (match writeFile (default "map.svg" (opt_output options)) (svgString doc) with
          | Ok _ => Ok (svgString doc)
          | Throw e => Throw e
          end,
          trace ++ map Load (map trim (split "," mapdata))
            ++ [WriteFile (default "map.svg" (opt_output options)) (svgString doc)])) /\
  (forall before dataset after geos e,
     map trim (split "," mapdata) = before ++ dataset :: after ->
     allLoad before geos ->
     loadDataset dataset = Throw e ->
     generateMap options trace =
       (Throw e, trace ++ map Load before ++ [Load dataset])).
Proof.
  intros M P. split; [|split].
  - split; [apply (concat_split ","%char)|]. split; [apply split_pieces|].
    induction (split "," mapdata) as [|piece pieces IH]; constructor;
      [apply trim_trimmedFrom|exact IH].
  - intros geos L.
    destruct (buildDocument_paths options proj geos trace P) as (doc & v & E & _ & D & _).
    { rewrite M. exact L. }
    rewrite M in E. exists doc.
    split; [exact E|]. split; [exact D|].
    split; [|split].
    + rewrite D, map_map. reflexivity.
    + rewrite D, length_map, <- (Forall2_length _ _ _ L), length_map.
      reflexivity.
    + rewrite (generateMap_built _ _ _ _ E), <- app_assoc. reflexivity.
  - intros before dataset after geos e S L F.
    apply generateMap_build_fails.
    destruct (graticulesEnabled_merged options) as (v & _ & _ & G).
    unfold buildDocument. rewrite P, bind_sync_Ok, G, bind_sync_Ok.
    rewrite M. unfold parseDatasets. rewrite S.
    apply (drawDatasets_fails _ _ _ _ _ _ _ L F).
Qed.

Lemma graticuleElement_attributes proj :
  getAttribute "clip-path" (graticuleElement proj) = Some "url(#clip)" /\
  getAttribute "fill" (graticuleElement proj) = Some "none" /\
  getAttribute "stroke" (graticuleElement proj) = Some "#666" /\
  getAttribute "stroke-width" (graticuleElement proj) = Some "0.5" /\
  getAttribute "stroke-dasharray" (graticuleElement proj) = Some "2,2".
Proof.
  unfold graticuleElement, getAttribute.
  destruct (geoPath proj (Graticule [15; 15]%float)); repeat split; reflexivity.
Qed.

Lemma defsElement_children proj :
  exists sphere,
    children (defsElement proj) =
      [sphere;
       mkElement "clipPath" None [("id", "clip")]
         [mkElement "use" None [("href", "#sphere")] []]] /\
    datum sphere = Some Sphere /\
    getAttribute "id" sphere = Some "sphere".
Proof.
  eexists. split; [reflexivity|]. split; [reflexivity|].
  unfold getAttribute. cbn [attr attributes setDatum element].
  destruct (geoPath proj Sphere); reflexivity.
Qed.

(** Claim C8. In a render that succeeds: when the overrides set
    [showgraticules] to "false" in any letter case the document has no
    graticule path; when they leave it unset, or set it to "true", it has
    exactly one. That path is bound to the graticule of step 15 by 15, is
    clipped by the clip path [#clip], which uses the sphere, and is drawn as a
    gray [#666] line of width 0.5, dashed 2,2 and not filled. *)
Theorem graticule_switch (options : Options) (proj : Projection)
    (geos : list GeoJSON) (trace : list Event) :
  mapProjection (default "WB" (opt_projection options))
    (opt_center options) (opt_bounds options) = Ok proj ->
  allLoad (parseDatasets (default "50mcoastline" (opt_mapdata options))) geos ->
  exists doc,
    buildDocument options trace =
      (Ok doc,
       trace ++ map Load (parseDatasets (default "50mcoastline" (opt_mapdata options)))) /\
    (forall v,
       default ∅ (opt_styles options) !! "showgraticules" = Some v ->
       caseInsensitiveEq v "false" ->
       graticulePaths doc = []) /\
    (default ∅ (opt_styles options) !! "showgraticules" = None \/
     default ∅ (opt_styles options) !! "showgraticules" = Some "true" ->
     graticulePaths doc = [graticuleElement proj]) /\
    datum (graticuleElement proj) = Some (Graticule [15; 15]%float) /\
    (getAttribute "clip-path" (graticuleElement proj) = Some "url(#clip)" /\
     getAttribute "fill" (graticuleElement proj) = Some "none" /\
     getAttribute "stroke" (graticuleElement proj) = Some "#666" /\
     getAttribute "stroke-width" (graticuleElement proj) = Some "0.5" /\
     getAttribute "stroke-dasharray" (graticuleElement proj) = Some "2,2") /\
    defsElement proj ∈ children doc /\
    (exists sphere,
       children (defsElement proj) =
         [sphere;
          mkElement "clipPath" None [("id", "clip")]
            [mkElement "use" None [("href", "#sphere")] []]] /\
       datum sphere = Some Sphere /\
       getAttribute "id" sphere = Some "sphere").
Proof.
  intros P L.
  destruct (buildDocument_paths options proj geos trace P L)
    as (doc & v & E & Ev & _ & G & D).
  rewrite mergedStyles_lookup in Ev.
  exists doc. split; [exact E|].
  split; [|split; [|split; [|split; [|split]]]].
  - intros w Ew Ci. rewrite Ew in Ev. injection Ev as <-.
    rewrite G, Ci. reflexivity.
  - intros [En | Et]; rewrite G.
    + rewrite En in Ev. injection Ev as <-. reflexivity.
    + rewrite Et in Ev. injection Ev as <-. reflexivity.
  - reflexivity.
  - apply graticuleElement_attributes.
  - exact D.
  - apply defsElement_children.
Qed.

(** Claim C9. In a render that succeeds, let [v] be the value of
    [showgraticules] in the merged styles. The document has the graticule
    path exactly when [v] folded to lower case is the string "true"; for any
    other value it has none. The overrides "yes", "1" and "true " (with a
    trailing space) are such values. *)
Theorem graticule_only_when_true (options : Options) (proj : Projection)
    (geos : list GeoJSON) (trace : list Event) :
  mapProjection (default "WB" (opt_projection options))
    (opt_center options) (opt_bounds options) = Ok proj ->
  allLoad (parseDatasets (default "50mcoastline" (opt_mapdata options))) geos ->
  exists doc v,
    buildDocument options trace =
      (Ok doc,
       trace ++ map Load (parseDatasets (default "50mcoastline" (opt_mapdata options)))) /\
    mergedStyles options !! "showgraticules" = Some v /\
    (toLowerCase v = "true" -> graticulePaths doc = [graticuleElement proj]) /\
    (toLowerCase v <> "true" -> graticulePaths doc = []) /\
    (graticulePaths doc <> [] <-> toLowerCase v = "true") /\
    (forall w,
       w ∈ ["yes"; "1"; "true "] ->
       default ∅ (opt_styles options) !! "showgraticules" = Some w ->
       graticulePaths doc = []).
Proof.
  intros P L.
  destruct (buildDocument_paths options proj geos trace P L)
    as (doc & v & E & Ev & _ & G & _).
  exists doc, v. split; [exact E|]. split; [exact Ev|].
  destruct (String.eqb_spec (toLowerCase v) "true") as [T|F].
  - split; [intros _; exact G|]. split; [intros N; destruct (N T)|].
    split; [split; [intros _; exact T | intros _; rewrite G; discriminate]|].
    intros w Hw Ew. rewrite mergedStyles_lookup, Ew in Ev. injection Ev as <-.
    rewrite !elem_of_cons, elem_of_nil in Hw.
    destruct Hw as [-> | [-> | [-> | []]]]; discriminate T.
  - split; [intros T; destruct (F T)|]. split; [intros _; exact G|].
    split; [split; [intros N; destruct (N G) | intros T; destruct (F T)]|].
    intros _ _ _. exact G.
Qed.

End Document.

(** ** More on projection setup *)

Lemma setupProjection_succeeds_iff (projectionType : string) (center : option string) :
  (exists proj, setupProjection projectionType center = Ok proj) <->
  caseInsensitiveEq projectionType "WB" \/ caseInsensitiveEq projectionType "W3".
Proof.
  split.
  - intros (proj & E).
    destruct (String.eqb_spec (toUpperCase projectionType) "WB") as [B|NB].
    { left. now apply caseInsensitiveEq_upper. }
    destruct (String.eqb_spec (toUpperCase projectionType) "W3") as [W|NW].
    { right. now apply caseInsensitiveEq_upper. }
    unfold setupProjection in E. rewrite selectProjection_other in E.
    + discriminate E.
    + intros C. apply NB. now apply caseInsensitiveEq_upper in C.
    + intros C. apply NW. now apply caseInsensitiveEq_upper in C.
  - intros Sup. destruct (selectProjection_supported _ Sup) as (proj0 & Sel).
    eexists. exact (setupProjection_selected _ center _ Sel).
Qed.

(** Property X1. Projection setup returns a projection for exactly six
    identifiers, the spellings of "WB" and "W3" in either case of each
    letter, and this does not depend on the centre: the identifier is not
    trimmed, and no centre makes setup fail or succeed. *)
Theorem setupProjection_accepts (projectionType : string) (center : option string) :
  (exists proj, setupProjection projectionType center = Ok proj) <->
  projectionType ∈ ["WB"; "Wb"; "wB"; "wb"; "W3"; "w3"].
Proof.
  rewrite setupProjection_succeeds_iff, caseInsensitiveEq_WB, caseInsensitiveEq_W3.
  rewrite !elem_of_cons, !elem_of_nil. tauto.
Qed.

(** Property X2. Two identifiers that are equal up to case set up the same
    projection: when setup returns for one, it returns the same projection
    for the other. *)
Theorem setupProjection_case_insensitive (projectionType1 projectionType2 : string)
    (center : option string) (proj : Projection) :
  caseInsensitiveEq projectionType1 projectionType2 ->
  setupProjection projectionType1 center = Ok proj ->
  setupProjection projectionType2 center = Ok proj.
Proof.
  intros E%caseInsensitiveEq_upper. unfold setupProjection, selectProjection.
  rewrite E.
  destruct (String.eqb (toUpperCase projectionType2) "WB"); [trivial|].
  destruct (String.eqb (toUpperCase projectionType2) "W3"); [trivial|].
  intros S. discriminate S.
Qed.

Lemma applyCenter_cases (center : option string) (proj : Projection) :
  applyCenter center proj = proj \/
  exists c lat lon extra,
    center = Some c /\
    map Number (split "," c) = lat :: lon :: extra /\
    PrimFloat.is_nan lat = false /\
    PrimFloat.is_nan lon = false /\
    applyCenter center proj = setRotate [lon; lat; 0%float] proj.
Proof.
  destruct center as [c|]; [|now left].
  destruct (map Number (split "," c)) as [|lat [|lon extra]] eqn:E.
  - left. apply applyCenter_skipped. rewrite E. now left.
  - left. apply applyCenter_skipped. rewrite E. now right.
  - destruct (PrimFloat.is_nan lat) eqn:Hlat.
    { left. apply applyCenter_skipped. rewrite E. left. exact Hlat. }
    destruct (PrimFloat.is_nan lon) eqn:Hlon.
    { left. apply applyCenter_skipped. rewrite E. right. exact Hlon. }
    right. exists c, lat, lon, extra. repeat split; try assumption.
    exact (applyCenter_rotates _ _ _ _ _ E Hlat Hlon).
Qed.

(** Property X3. Whatever projection setup returns is translated to
    (600, 400), is a Waterman projection of scale 120 or a Winkel Tripel one
    of scale 200, and has either the library's rotation or the rotation
    [[lon; lat; 0]] read from the first two components of the centre, neither
    of them NaN: setup never rotates by NaN. *)
Theorem setupProjection_returns (projectionType : string) (center : option string)
    (proj : Projection) :
  setupProjection projectionType center = Ok proj ->
  translate proj = (600, 400)%float /\
  (kind proj = Waterman /\ scale proj = 120%float \/
   kind proj = Winkel3 /\ scale proj = 200%float) /\
  (rotate proj = defaultRotate (kind proj) \/
   exists c lat lon extra,
     center = Some c /\
     map Number (split "," c) = lat :: lon :: extra /\
     PrimFloat.is_nan lat = false /\
     PrimFloat.is_nan lon = false /\
     rotate proj = [lon; lat; 0%float]).
Proof.
  unfold setupProjection. intros S.
  destruct (selectProjection projectionType) as [p|e] eqn:Sel; [|discriminate S].
  injection S as <-.
  rewrite applyCenter_translate, applyCenter_kind, applyCenter_scale.
  assert (R := selectProjection_rotate _ _ Sel).
  split; [|split].
  - unfold selectProjection in Sel.
    repeat case_match; try discriminate Sel; injection Sel as <-; reflexivity.
  - unfold selectProjection in Sel.
    repeat case_match; try discriminate Sel; injection Sel as <-;
      [left | right]; split; reflexivity.
  - destruct (applyCenter_cases center p)
      as [-> | (c & lat & lon & extra & -> & E & Hlat & Hlon & ->)].
    + left. exact R.
    + right. exists c, lat, lon, extra. repeat split; assumption.
Qed.

(** ** More on bounds *)

(** Property X4. Bounds fitting has two outcomes only. Either the first four
    components convert to numbers, none of them NaN, and the projection is
    fitted to their box; or one of the four is missing or NaN and the error
    is the invalid-bounds one. No other error is thrown, and [fitExtent] is
    never handed a NaN coordinate. *)
Theorem applyBounds_cases (projection : Projection) (bounds : string) :
  (exists minLat maxLat minLon maxLon extra,
     map Number (split "," bounds) = minLat :: maxLat :: minLon :: maxLon :: extra /\
     PrimFloat.is_nan minLat = false /\
     PrimFloat.is_nan maxLat = false /\
     PrimFloat.is_nan minLon = false /\
     PrimFloat.is_nan maxLon = false /\
     applyBounds projection bounds =
       Ok (fitExtent EXTENT (boundingBox minLat maxLat minLon maxLon) projection)) \/
  ((exists i, i < 4 /\ isNaN (map Number (split "," bounds) !! i) = true) /\
   applyBounds projection bounds = Throw InvalidBoundsError).
Proof.
  assert (Bad : forall i, i < 4 ->
            isNaN (map Number (split "," bounds) !! i) = true ->
            (exists i, i < 4 /\ isNaN (map Number (split "," bounds) !! i) = true) /\
            applyBounds projection bounds = Throw InvalidBoundsError).
  { intros i Hi E. split; [now exists i|]. now apply applyBounds_rejects with i. }
  destruct (map Number (split "," bounds)) as [|a [|b [|c [|d extra]]]] eqn:E.
  - right. apply (Bad 0); [lia|reflexivity].
  - right. apply (Bad 1); [lia|reflexivity].
  - right. apply (Bad 2); [lia|reflexivity].
  - right. apply (Bad 3); [lia|reflexivity].
  - destruct (PrimFloat.is_nan a) eqn:Ha; [right; apply (Bad 0); [lia|exact Ha]|].
    destruct (PrimFloat.is_nan b) eqn:Hb; [right; apply (Bad 1); [lia|exact Hb]|].
    destruct (PrimFloat.is_nan c) eqn:Hc; [right; apply (Bad 2); [lia|exact Hc]|].
    destruct (PrimFloat.is_nan d) eqn:Hd; [right; apply (Bad 3); [lia|exact Hd]|].
    left. exists a, b, c, d, extra. repeat split; try assumption.
    rewrite <- E in *. now apply applyBounds_first_four with (extra := extra).
Qed.

(** Property X5. Bounds with fewer than three commas are rejected whatever
    their components are: a fourth component is missing. *)
Theorem applyBounds_too_few (bounds : string) :
  countChar "," bounds < 3 ->
  forall projection, applyBounds projection bounds = Throw InvalidBoundsError.
Proof.
  intros C projection. apply applyBounds_rejects with 3; [lia|].
  rewrite lookup_ge_None_2; [reflexivity|].
  rewrite length_map, split_length. lia.
Qed.

(** Property X6. An empty bounds string is not an error in a render: it
    fails the test of line 44 and the render goes on as if no bounds had been
    given, although bounds fitting itself rejects the empty string. *)
Theorem empty_bounds_ignored (projection mapdata output center : option string)
    (styles : option (gmap string string)) (trace : list Event) :
  generateMap (mkOptions projection mapdata output center (Some "") styles) trace =
    generateMap (mkOptions projection mapdata output center None styles) trace /\
  (forall proj, applyBounds proj "" = Throw InvalidBoundsError).
Proof.
  split.
  - unfold generateMap, buildDocument, mapProjection. cbn [opt_bounds truthy].
    reflexivity.
  - intros proj. apply applyBounds_rejects with 1; [lia|reflexivity].
Qed.

(** Property X7. Centre and bounds compose: with a centre of two numbers and
    bounds of four, the projection is rotated first and fitted afterwards, so
    the fit is computed for the rotated projection. *)
Theorem center_then_bounds (projectionType center bounds : string)
    (proj0 : Projection) (lat lon minLat maxLat minLon maxLon : float) :
  setupProjection projectionType None = Ok proj0 ->
  map Number (split "," center) = [lat; lon] ->
  PrimFloat.is_nan lat = false ->
  PrimFloat.is_nan lon = false ->
  map Number (split "," bounds) = [minLat; maxLat; minLon; maxLon] ->
  PrimFloat.is_nan minLat = false ->
  PrimFloat.is_nan maxLat = false ->
  PrimFloat.is_nan minLon = false ->
  PrimFloat.is_nan maxLon = false ->
  mapProjection projectionType (Some center) (Some bounds) =
    Ok (fitExtent EXTENT (boundingBox minLat maxLat minLon maxLon)
          (setRotate [lon; lat; 0%float] proj0)).
Proof.
  intros S Ec Hlat Hlon Eb H0 H1 H2 H3.
  rewrite setupProjection_None in S.
  assert (S' : setupProjection projectionType (Some center) =
               Ok (setRotate [lon; lat; 0%float] proj0)).
  { rewrite (setupProjection_selected _ _ _ S).
    now rewrite (applyCenter_rotates _ _ _ _ _ Ec Hlat Hlon). }
  rewrite (mapProjection_bounds _ _ _ _ S').
  - now apply applyBounds_first_four with (extra := []).
  - apply (split_two_truthy ","%char).
    rewrite <- (length_map Number), Eb. simpl. lia.
Qed.

(** ** More on the dataset list *)

(** Property X8. The dataset list has one identifier more than the mapdata
    string has commas, so it is never empty: an empty string, and the empty
    piece before, between or after commas, give the identifier "". No
    identifier holds a comma, and none starts or ends with a white space
    character. *)
Theorem parseDatasets_identifiers (mapdata : string) :
  length (parseDatasets mapdata) = S (countChar "," mapdata) /\
  (forall dataset,
     dataset ∈ parseDatasets mapdata ->
     countChar "," dataset = 0 /\
     (forall w rest, w ∈ WHITE_SPACE -> dataset <> w +:+ rest) /\
     (forall w front, w ∈ WHITE_SPACE -> dataset <> front +:+ w)).
Proof.
  unfold parseDatasets. split.
  - rewrite length_map. apply split_length.
  - intros dataset In. apply list_elem_of_In, in_map_iff in In.
    destruct In as (piece & <- & In).
    pose proof (proj1 (List.Forall_forall _ _) (split_pieces ","%char mapdata) _ In)
      as P.
    destruct (trim_trimmedFrom piece) as (before & after & E & _ & _ & Ns & Ne).
    split; [|split; [exact Ns|exact Ne]].
    simpl in P. rewrite E, !countChar_append in P. lia.
Qed.

(** ** More on styles *)

Lemma backgroundElement_ext (styles1 styles2 : gmap string string) :
  styles1 !! "background" = styles2 !! "background" ->
  styles1 !! "outlinecolor" = styles2 !! "outlinecolor" ->
  styles1 !! "outlinethickness" = styles2 !! "outlinethickness" ->
  backgroundElement styles1 = backgroundElement styles2.
Proof. unfold backgroundElement. now intros -> -> ->. Qed.

Lemma datasetElement_ext proj (styles1 styles2 : gmap string string) mapData :
  styles1 !! "linecolor" = styles2 !! "linecolor" ->
  styles1 !! "linethickness" = styles2 !! "linethickness" ->
  datasetElement proj styles1 mapData = datasetElement proj styles2 mapData.
Proof. unfold datasetElement. now intros -> ->. Qed.

Lemma graticulesEnabled_ext (styles1 styles2 : gmap string string) :
  styles1 !! "showgraticules" = styles2 !! "showgraticules" ->
  graticulesEnabled styles1 = graticulesEnabled styles2.
Proof. unfold graticulesEnabled. now intros ->. Qed.

Lemma drawDatasets_ext proj (styles1 styles2 : gmap string string) datasets :
  styles1 !! "linecolor" = styles2 !! "linecolor" ->
  styles1 !! "linethickness" = styles2 !! "linethickness" ->
  forall svg t,
    drawDatasets proj styles1 datasets svg t = drawDatasets proj styles2 datasets svg t.
Proof.
  intros C T. induction datasets as [|dataset rest IH]; intros svg t;
    [reflexivity|].
  cbn [drawDatasets]. rewrite !bind_run. unfold await.
  destruct (loadDataset dataset) as [mapData|e]; [|reflexivity].
  rewrite (datasetElement_ext proj styles1 styles2 mapData C T). apply IH.
Qed.

(** Property X10. A render reads the style overrides through the six known
    keys only: two renders whose options differ in the overrides alone, and
    whose overrides agree on those six keys, make the same calls and return
    the same result. Unknown keys are ignored. *)
Theorem unknown_styles_ignored (projection mapdata output center bounds : option string)
    (styles1 styles2 : option (gmap string string)) (trace : list Event) :
  (forall k,
     k ∈ ["linethickness"; "linecolor"; "outlinethickness"; "outlinecolor";
          "showgraticules"; "background"] ->
     default ∅ styles1 !! k = default ∅ styles2 !! k) ->
  generateMap (mkOptions projection mapdata output center bounds styles1) trace =
    generateMap (mkOptions projection mapdata output center bounds styles2) trace.
Proof.
  intros Agree.
  set (o1 := mkOptions projection mapdata output center bounds styles1).
  set (o2 := mkOptions projection mapdata output center bounds styles2).
  assert (M : forall k,
            k ∈ ["linethickness"; "linecolor"; "outlinethickness"; "outlinecolor";
                 "showgraticules"; "background"] ->
            mergedStyles o1 !! k = mergedStyles o2 !! k).
  { intros k In. rewrite !mergedStyles_lookup. subst o1 o2. cbn [opt_styles].
    now rewrite (Agree k In). }
  assert (B : buildDocument o1 trace = buildDocument o2 trace).
  { unfold buildDocument. subst o1 o2.
    cbn [opt_projection opt_mapdata opt_center opt_bounds].
    set (o1 := mkOptions projection mapdata output center bounds styles1) in *.
    set (o2 := mkOptions projection mapdata output center bounds styles2) in *.
    destruct (mapProjection (default "WB" projection) center bounds) as [proj|e];
      [|reflexivity].
    rewrite !bind_sync_Ok.
    rewrite (graticulesEnabled_ext (mergedStyles o1) (mergedStyles o2)).
    2:{ apply M. do 4 apply list_elem_of_further. apply list_elem_of_here. }
    rewrite (backgroundElement_ext (mergedStyles o1) (mergedStyles o2)).
    2:{ apply M. do 5 apply list_elem_of_further. apply list_elem_of_here. }
    2:{ apply M. do 3 apply list_elem_of_further. apply list_elem_of_here. }
    2:{ apply M. do 2 apply list_elem_of_further. apply list_elem_of_here. }
    destruct (graticulesEnabled (mergedStyles o2)) as [enabled|e]; [|reflexivity].
    rewrite !bind_sync_Ok.
    apply drawDatasets_ext.
    - apply M. do 1 apply list_elem_of_further. apply list_elem_of_here.
    - apply M. apply list_elem_of_here. }
  unfold generateMap. rewrite !bind_run, B. reflexivity.
Qed.

(** ** More on the render *)

Lemma drawDatasets_root proj styles datasets :
  forall svg t doc t',
    drawDatasets proj styles datasets svg t = (Ok doc, t') ->
    tag doc = tag svg /\ attributes doc = attributes svg.
Proof.
  induction datasets as [|dataset rest IH]; intros svg t doc t' E.
  - injection E as <- _. split; reflexivity.
  - cbn [drawDatasets] in E. rewrite bind_run in E. unfold await in E.
    destruct (loadDataset dataset) as [mapData|e]; [|discriminate E].
    destruct (IH _ _ _ _ E) as (T & A). split; [exact T|exact A].
Qed.

Lemma assoc_setAttribute (name value : string) (l : list (string * string)) :
  assoc name (setAttribute name value l) = Some value.
Proof.
  induction l as [|[n v] l IH]; simpl.
  - now rewrite String.eqb_refl.
  - destruct (String.eqb n name) eqn:E; simpl; rewrite E; [reflexivity|exact IH].
Qed.

(** Property X11. In a render that succeeds, the children of the document
    are, in this order: what the new canvas held, [defs], the background, the
    graticule path when it is enabled, and the dataset paths in list order. So
    a dataset is drawn over the background, the graticule and the datasets
    before it. The root keeps the tag the canvas had and has the view box
    "0 0 1200 800", and every path is drawn with the one projection that
    setup and bounds fitting gave. *)
Theorem document_order (options : Options) (proj : Projection)
    (geos : list GeoJSON) (trace : list Event) :
  mapProjection (default "WB" (opt_projection options))
    (opt_center options) (opt_bounds options) = Ok proj ->
  allLoad (parseDatasets (default "50mcoastline" (opt_mapdata options))) geos ->
  exists doc v,
    buildDocument options trace =
      (Ok doc,
       trace ++ map Load (parseDatasets (default "50mcoastline" (opt_mapdata options)))) /\
    mergedStyles options !! "showgraticules" = Some v /\
    children doc =
      children (createSVG WIDTH HEIGHT)
        ++ [defsElement proj; backgroundElement (mergedStyles options)]
        ++ (if String.eqb (toLowerCase v) "true"
            then [graticuleElement proj] else [])
        ++ map (datasetElement proj (mergedStyles options)) geos /\
    tag doc = tag (createSVG WIDTH HEIGHT) /\
    getAttribute "viewBox" doc = Some "0 0 1200 800".
Proof.
  intros P L.
  destruct (buildDocument_ok options proj geos trace P L) as (doc & v & E & Ev & C).
  exists doc, v. split; [exact E|]. split; [exact Ev|]. split; [exact C|].
  destruct (graticulesEnabled_merged options) as (v' & _ & _ & G).
  unfold buildDocument in E. rewrite P, bind_sync_Ok, G, bind_sync_Ok in E.
  destruct (drawDatasets_root _ _ _ _ _ _ _ E) as (T & A).
  unfold getAttribute. rewrite T, A.
  destruct (String.eqb (toLowerCase v') "true"); cbn [append attr tag attributes];
    split; try reflexivity; apply assoc_setAttribute.
Qed.




Lemma allLoad_or_fails (datasets : list string) :
  (exists geos, allLoad datasets geos) \/
  (exists before dataset after geos e,
     datasets = before ++ dataset :: after /\
     allLoad before geos /\
     loadDataset dataset = Throw e).
Proof.
  induction datasets as [|d rest IH].
  - left. exists []. constructor.
  - destruct (loadDataset d) as [g|e] eqn:L.
    + destruct IH as [(geos & A) | (before & dataset & after & geos & e & -> & A & F)].
      * left. exists (g :: geos). now constructor.
      * right. exists (d :: before), dataset, after, (g :: geos), e.
        repeat split; [|exact F]. now constructor.
    + right. exists [], d, rest, [], e. repeat split; [constructor|exact L].
Qed.

Lemma buildDocument_load_fails options proj before dataset after geos e t :
  mapProjection (default "WB" (opt_projection options))
    (opt_center options) (opt_bounds options) = Ok proj ->
  parseDatasets (default "50mcoastline" (opt_mapdata options)) =
    before ++ dataset :: after ->
  allLoad before geos ->
  loadDataset dataset = Throw e ->
  buildDocument options t = (Throw e, t ++ map Load before ++ [Load dataset]).
Proof.
  intros P S L F.
  destruct (graticulesEnabled_merged options) as (v & _ & _ & G).
  unfold buildDocument. rewrite P, bind_sync_Ok, G, bind_sync_Ok, S.
  apply (drawDatasets_fails _ _ _ _ _ _ _ L F).
Qed.

(** The three ways a render can go: the projection step throws; a dataset
    fails to load; or the document is built and the write is attempted. *)
Lemma generateMap_cases (options : Options) (t : list Event) :
  (exists e,
     mapProjection (default "WB" (opt_projection options))
       (opt_center options) (opt_bounds options) = Throw e /\
     generateMap options t = (Throw e, t)) \/
  (exists before dataset after e,
     parseDatasets (default "50mcoastline" (opt_mapdata options)) =
       before ++ dataset :: after /\
     loadDataset dataset = Throw e /\
     generateMap options t = (Throw e, t ++ map Load before ++ [Load dataset])) \/
  (exists doc,
     buildDocument options t =
       (Ok doc,
        t ++ map Load (parseDatasets (default "50mcoastline" (opt_mapdata options)))) /\
     generateMap options t =
       (match writeFile (default "map.svg" (opt_output options)) (svgString doc) with
        | Ok _ => Ok (svgString doc)
        | Throw e => Throw e
        end,
        t ++ map Load (parseDatasets (default "50mcoastline" (opt_mapdata options)))
          ++ [WriteFile (default "map.svg" (opt_output options)) (svgString doc)])).
Proof.
  destruct (mapProjection (default "WB" (opt_projection options))
              (opt_center options) (opt_bounds options)) as [proj|e] eqn:P.
  - right.
    destruct (allLoad_or_fails
                (parseDatasets (default "50mcoastline" (opt_mapdata options))))
      as [(geos & A) | (before & dataset & after & geos & e & S & A & F)].
    + right. destruct (buildDocument_ok options proj geos t P A) as (doc & v & E & _).
      exists doc. split; [exact E|].
      rewrite (generateMap_built _ _ _ _ E), <- app_assoc. reflexivity.
    + left. exists before, dataset, after, e. split; [exact S|]. split; [exact F|].
      apply generateMap_build_fails.
      exact (buildDocument_load_fails _ _ _ _ _ _ _ _ P S A F).
  - left. exists e. split; [reflexivity|].
    now apply generateMap_build_fails, buildDocument_projection_fails.
Qed.


(** Property X13. When a render returns, the text it returns is the
    serialization of the document it built and is exactly what it wrote, in
    one write to the output path, made after every dataset had been loaded in
    list order; and that write succeeded. *)
Theorem generateMap_returns (options : Options) (trace trace' : list Event)
    (svgContent : string) :
  generateMap options trace = (Ok svgContent, trace') ->
  exists doc,
    buildDocument options trace =
      (Ok doc,
       trace ++ map Load (parseDatasets (default "50mcoastline" (opt_mapdata options)))) /\
    svgContent = svgString doc /\
    writeFile (default "map.svg" (opt_output options)) svgContent = Ok tt /\
    trace' =
      trace ++ map Load (parseDatasets (default "50mcoastline" (opt_mapdata options)))
        ++ [WriteFile (default "map.svg" (opt_output options)) svgContent].
Proof.
  intros G.
  destruct (generateMap_cases options trace)
    as [(e' & P & G') | [(before & dataset & after & e' & S & F & G') | (doc & B & G')]];
    rewrite G' in G; try discriminate G.
  exists doc. split; [exact B|].
  destruct (writeFile _ _) as [[]|e'] eqn:W; [|discriminate G].
  injection G as <- <-. rewrite W. repeat split; reflexivity.
Qed.

(** Property X14. Whatever the options and the collaborators, the calls a
    render adds are loads of the first [n] datasets of the list, in list
    order, followed by at most one write; and there is a write only when all
    the datasets were loaded. A render never loads out of order, never skips
    a dataset, never writes twice and never writes before the last load. *)
Theorem generateMap_calls (options : Options) (trace : list Event) :
  exists n writes,
    snd (generateMap options trace) =
      trace
        ++ map Load (take n (parseDatasets (default "50mcoastline" (opt_mapdata options))))
        ++ writes /\
    (writes = [] \/
     n = length (parseDatasets (default "50mcoastline" (opt_mapdata options))) /\
     exists content,
       writes = [WriteFile (default "map.svg" (opt_output options)) content]).
Proof.
  destruct (generateMap_cases options trace)
    as [(e' & P & G') | [(before & dataset & after & e' & S & F & G') | (doc & B & G')]];
    rewrite G'; cbn [snd].
  - exists 0, []. split; [|now left]. rewrite take_0, !app_nil_r. reflexivity.
  - exists (length (before ++ [dataset])), []. split; [|now left].
    rewrite S, (cons_middle dataset before after), (app_assoc before [dataset] after).
    rewrite take_app_length.
    rewrite map_app, app_nil_r. reflexivity.
  - eexists (length _), [_]. split.
    + rewrite firstn_all. reflexivity.
    + right. split; [reflexivity|]. eexists. reflexivity.
Qed.

Section DatasetPaths.

Hypothesis createSVG_empty : forall w h, children (createSVG w h) = [].

Lemma datasetElement_fixed proj (styles : gmap string string) mapData :
  getAttribute "d" (datasetElement proj styles mapData) =
    geoPath proj (Dataset mapData) /\
  getAttribute "clip-path" (datasetElement proj styles mapData) = Some "url(#clip)" /\
  getAttribute "fill" (datasetElement proj styles mapData) = Some "none".
Proof.
  unfold datasetElement, getAttribute.
  destruct (geoPath proj (Dataset mapData)), (styles !! "linecolor"),
    (styles !! "linethickness"); repeat split; reflexivity.
Qed.

(** Property X15. In a render that succeeds, every dataset path of the
    document is a [path] bound to the geometry of one of the datasets, its
    path data are those the render's projection gives for that geometry, it
    is clipped by [#clip] and it is not filled. No style override changes the
    clipping or the fill. *)
Theorem dataset_paths_clipped (options : Options) (proj : Projection)
    (geos : list GeoJSON) (trace : list Event) :
  mapProjection (default "WB" (opt_projection options))
    (opt_center options) (opt_bounds options) = Ok proj ->
  allLoad (parseDatasets (default "50mcoastline" (opt_mapdata options))) geos ->
  exists doc,
    buildDocument options trace =
      (Ok doc,
       trace ++ map Load (parseDatasets (default "50mcoastline" (opt_mapdata options)))) /\
    (forall e,
       e ∈ datasetPaths doc ->
       exists mapData,
         mapData ∈ geos /\
         tag e = "path" /\
         datum e = Some (Dataset mapData) /\
         getAttribute "d" e = geoPath proj (Dataset mapData) /\
         getAttribute "clip-path" e = Some "url(#clip)" /\
         getAttribute "fill" e = Some "none").
Proof.
  intros P L.
  destruct (buildDocument_paths createSVG_empty options proj geos trace P L)
    as (doc & v & E & _ & D & _).
  exists doc. split; [exact E|].
  intros e In. rewrite D in In.
  apply list_elem_of_In, in_map_iff in In. destruct In as (mapData & <- & In).
  exists mapData. split; [now apply list_elem_of_In|].
  split; [reflexivity|]. split; [reflexivity|].
  apply datasetElement_fixed.
Qed.

End DatasetPaths.

End Properties.

(** * The properties on the sample collaborators *)

Example parseDatasets_abc : parseDatasets "a,b,c" = ["a"; "b"; "c"].
Proof. reflexivity. Qed.

Example parseDatasets_spaces : parseDatasets " a , b c,,d " = ["a"; "b c"; ""; "d"].
Proof. reflexivity. Qed.

Example split_empty : split "," "" = [""].
Proof. reflexivity. Qed.

(** A no-break space (U+00A0) before "a" and a byte order mark (U+FEFF)
    after "b" are trimmed as the ASCII white space is. *)
Example parseDatasets_unicode :
  parseDatasets (bytes [194; 160; 97; 32; 44; 9; 98; 239; 187; 191]%N) = ["a"; "b"].
Proof. reflexivity. Qed.

Example sample_render :
  @generateMap sampleCollaborators sampleOptions [] =
    (Ok "<svg><defs/><use/><path/><path/><path/><path/></svg>",
     [Load "a"; Load "b"; Load "c";
      WriteFile "map.svg" "<svg><defs/><use/><path/><path/><path/><path/></svg>"]).
Proof. reflexivity. Qed.

Example sample_document :
  fst (@buildDocument sampleCollaborators
         (mkOptions None (Some "a") None None None
            (Some {[ "linecolor" := "red" ]})) []) =
    Ok (mkElement "svg" None [("viewBox", "0 0 1200 800")]
          [ mkElement "defs" None []
              [ mkElement "path" (Some Sphere) [("id", "sphere"); ("d", "sphere")] [];
                mkElement "clipPath" None [("id", "clip")]
                  [mkElement "use" None [("href", "#sphere")] []] ];
            mkElement "use" None
              [("href", "#sphere"); ("fill", "white"); ("stroke", "black");
               ("stroke-width", "0.5")] [];
            mkElement "path" (Some (Graticule [15; 15]%float))
              [("d", "graticule"); ("clip-path", "url(#clip)"); ("fill", "none");
               ("stroke", "#666"); ("stroke-width", "0.5");
               ("stroke-dasharray", "2,2")] [];
            mkElement "path" (Some (Dataset "a"))
              [("d", "a"); ("clip-path", "url(#clip)"); ("fill", "none");
               ("stroke", "red"); ("stroke-width", "1")] [] ]).
Proof. reflexivity. Qed.

Lemma sample_createSVG_empty :
  forall w h : float, children (@createSVG sampleCollaborators w h) = [].
Proof. reflexivity. Qed.

Lemma setupProjection_supported_witness :
  (exists proj,
     @setupProjection sampleCollaborators "wb" (Some "10,20") = Ok proj /\
     kind proj = Waterman /\
     scale proj = (WIDTH / 10)%float /\ scale proj = 120%float /\
     translate proj = (600, 400)%float) /\
  (exists proj,
     @setupProjection sampleCollaborators "w3" (Some "10,20") = Ok proj /\
     kind proj = Winkel3 /\
     scale proj = (WIDTH / 6)%float /\ scale proj = 200%float /\
     translate proj = (600, 400)%float).
Proof.
  split.
  - apply (proj1 (@setupProjection_supported sampleCollaborators "wb" (Some "10,20"))).
    reflexivity.
  - apply (proj2 (@setupProjection_supported sampleCollaborators "w3" (Some "10,20"))).
    reflexivity.
Defined.

Lemma setupProjection_unsupported_witness :
  @setupProjection sampleCollaborators "XX" (Some "10,20") =
    Throw (Error "Unsupported projection type: XX") /\
  @generateMap sampleCollaborators
    (mkOptions (Some "XX") None None None None None) [] =
    (Throw (Error "Unsupported projection type: XX"), []).
Proof.
  assert (NB : ~ caseInsensitiveEq "XX" "WB")
    by (intros E; vm_compute in E; discriminate E).
  assert (N3 : ~ caseInsensitiveEq "XX" "W3")
    by (intros E; vm_compute in E; discriminate E).
  destruct (@setupProjection_unsupported sampleCollaborators "XX" NB N3)
    as (S & _ & G).
  split.
  - exact (S (Some "10,20")).
  - exact (G (mkOptions (Some "XX") None None None None None) [] eq_refl).
Defined.

Lemma applyBounds_fits_witness :
  @applyBounds sampleCollaborators sampleWB "10,20,30,40" =
    Ok (@fitExtent sampleCollaborators ((0, 0), (1200, 800))%float
          (Feature (Polygon [[ (30, 10); (30, 20); (40, 20); (40, 10); (30, 10) ]]%float))
          sampleWB) /\
  @mapProjection sampleCollaborators "WB" None (Some "10,20,30,40") =
    Ok (@fitExtent sampleCollaborators EXTENT (boundingBox 10 20 30 40)%float sampleWB) /\
  @mapProjection sampleCollaborators "WB" None (Some "10,20,30,40") =
    Ok (@fitExtent sampleCollaborators EXTENT (boundingBox 10 20 30 40)%float
          (@geoWaterman sampleCollaborators)).
Proof.
  destruct (@applyBounds_fits sampleCollaborators "10,20,30,40"
              10%float 20%float 30%float 40%float
              eq_refl eq_refl eq_refl eq_refl eq_refl) as (A & M & D).
  split; [|split].
  - exact (A sampleWB).
  - exact (M "WB" None sampleWB eq_refl).
  - exact (D (fun _ _ _ _ _ => eq_refl) "WB" None sampleWB eq_refl).
Defined.


Lemma setupProjection_center_witness :
  @setupProjection sampleCollaborators "WB" (Some "abc,50") = Ok sampleWB /\
  rotate sampleWB = @defaultRotate sampleCollaborators Waterman /\
  @setupProjection sampleCollaborators "WB" (Some "10,20") =
    Ok (mkProjection Waterman 120%float (600, 400)%float [20; 10; 0]%float) /\
  @setupProjection sampleCollaborators "XX" (Some "abc,50") =
    @setupProjection sampleCollaborators "XX" None.
Proof.
  destruct (@setupProjection_center sampleCollaborators "WB" "abc,50")
    as (Skip & _ & Default & _ & _).
  destruct (@setupProjection_center sampleCollaborators "WB" "10,20")
    as (_ & Rot & _ & _ & _).
  destruct (@setupProjection_center sampleCollaborators "XX" "abc,50")
    as (SkipXX & _ & _ & _ & _).
  split; [|split; [|split]].
  - rewrite Skip; [reflexivity|]. left. reflexivity.
  - exact (Default sampleWB eq_refl).
  - rewrite (Rot 10%float 20%float eq_refl eq_refl eq_refl). reflexivity.
  - apply SkipXX. left. reflexivity.
Defined.

Lemma extra_components_ignored_witness :
  @applyBounds sampleCollaborators sampleWB "1,2,3,4,5" =
    Ok (@fitExtent sampleCollaborators EXTENT (boundingBox 1 2 3 4)%float sampleWB) /\
  @applyBounds sampleCollaborators sampleWB "1,2,3,4,5" =
    @applyBounds sampleCollaborators sampleWB "1,2,3,4" /\
  @setupProjection sampleCollaborators "WB" (Some "10,20,30") =
    Ok (mkProjection Waterman 120%float (600, 400)%float [20; 10; 0]%float) /\
  @setupProjection sampleCollaborators "WB" (Some "10,20,30") =
    @setupProjection sampleCollaborators "WB" (Some "10,20").
Proof.
  destruct (@extra_components_ignored sampleCollaborators) as (B & C & B' & C').
  split; [|split; [|split]].
  - exact (B sampleWB "1,2,3,4,5" 1%float 2%float 3%float 4%float [5]%float
             eq_refl eq_refl eq_refl eq_refl eq_refl).
  - apply (B' sampleWB "1,2,3,4" "5"). vm_compute. lia.
  - exact (C "WB" "10,20,30" sampleWB 10%float 20%float [30]%float
             eq_refl eq_refl eq_refl eq_refl).
  - apply (C' "WB" "10,20" "30"). vm_compute. lia.
Defined.

Lemma styles_merge_witness :
  mergedStyles (mkOptions None None None None None
                  (Some {[ "linecolor" := "red" ]})) !! "linecolor" = Some "red" /\
  mergedStyles (mkOptions None None None None None
                  (Some {[ "linecolor" := "red" ]})) !! "background" = Some "white".
Proof.
  destruct (@styles_merge sampleCollaborators
              (mkOptions None None None None None (Some {[ "linecolor" := "red" ]})))
    as (D & Over & Keep & _).
  split.
  - apply Over. reflexivity.
  - rewrite Keep by reflexivity. rewrite D. reflexivity.
Defined.

Lemma sample_allLoad_abc : @allLoad sampleCollaborators ["a"; "b"; "c"] ["a"; "b"; "c"].
Proof. repeat constructor. Qed.

Lemma datasets_drawn_in_order_witness :
  Forall2 trimmedFrom [" a "; " b"; "c "] ["a"; "b"; "c"] /\
  (exists doc,
     @buildDocument sampleCollaborators sampleOptions [] =
       (Ok doc, [Load "a"; Load "b"; Load "c"]) /\
     map datum (datasetPaths doc) =
       [Some (Dataset "a"); Some (Dataset "b"); Some (Dataset "c")] /\
     length (datasetPaths doc) = 3 /\
     @generateMap sampleCollaborators sampleOptions [] =
       (Ok (sampleSvgString doc),
        [Load "a"; Load "b"; Load "c"; WriteFile "map.svg" (sampleSvgString doc)])) /\
  @generateMap sampleCollaborators
    (mkOptions None (Some "a,missing,c") None None None None) [] =
    (Throw (Error "Unknown dataset: missing"), [Load "a"; Load "missing"]).
Proof.
  split; [|split].
  - exact (proj2 (proj2 (proj1
             (@datasets_drawn_in_order sampleCollaborators sample_createSVG_empty
                sampleOptions " a , b,c "
                (mkProjection Waterman 1%float (1200, 800)%float [20; 10; 0]%float)
                [] eq_refl eq_refl)))).
  - destruct (@datasets_drawn_in_order sampleCollaborators sample_createSVG_empty
                sampleOptions " a , b,c "
                (mkProjection Waterman 1%float (1200, 800)%float [20; 10; 0]%float)
                [] eq_refl eq_refl) as (_ & Good & _).
    destruct (Good ["a"; "b"; "c"] sample_allLoad_abc) as (doc & E & _ & D & N & G).
    exists doc. repeat split; assumption.
  - destruct (@datasets_drawn_in_order sampleCollaborators sample_createSVG_empty
                (mkOptions None (Some "a,missing,c") None None None None)
                "a,missing,c" sampleWB [] eq_refl eq_refl) as (_ & _ & Bad).
    apply (Bad ["a"] "missing" ["c"] ["a"] (Error "Unknown dataset: missing")
             eq_refl).
    + repeat constructor.
    + reflexivity.
Defined.

Lemma graticule_switch_witness :
  (exists doc,
     @buildDocument sampleCollaborators (sampleStyled "FaLsE") [] =
       (Ok doc, [Load "a"; Load "b"; Load "c"]) /\
     graticulePaths doc = []) /\
  (exists doc,
     @buildDocument sampleCollaborators (sampleStyled "true") [] =
       (Ok doc, [Load "a"; Load "b"; Load "c"]) /\
     graticulePaths doc = [@graticuleElement sampleCollaborators sampleWB]) /\
  (exists doc,
     @buildDocument sampleCollaborators
       (mkOptions None (Some "a,b,c") None None None None) [] =
       (Ok doc, [Load "a"; Load "b"; Load "c"]) /\
     graticulePaths doc = [@graticuleElement sampleCollaborators sampleWB]).
Proof.
  split; [|split].
  - destruct (@graticule_switch sampleCollaborators sample_createSVG_empty
                (sampleStyled "FaLsE") sampleWB ["a"; "b"; "c"] []
                eq_refl sample_allLoad_abc) as (doc & E & Off & _).
    exists doc. split; [exact E|]. apply (Off "FaLsE"); reflexivity.
  - destruct (@graticule_switch sampleCollaborators sample_createSVG_empty
                (sampleStyled "true") sampleWB ["a"; "b"; "c"] []
                eq_refl sample_allLoad_abc) as (doc & E & _ & On & _).
    exists doc. split; [exact E|]. apply On. right. reflexivity.
  - destruct (@graticule_switch sampleCollaborators sample_createSVG_empty
                (mkOptions None (Some "a,b,c") None None None None)
                sampleWB ["a"; "b"; "c"] []
                eq_refl sample_allLoad_abc) as (doc & E & _ & On & _).
    exists doc. split; [exact E|]. apply On. left. reflexivity.
Defined.

Lemma graticule_only_when_true_witness :
  (exists doc,
     @buildDocument sampleCollaborators (sampleStyled "yes") [] =
       (Ok doc, [Load "a"; Load "b"; Load "c"]) /\
     graticulePaths doc = []) /\
  (exists doc,
     @buildDocument sampleCollaborators (sampleStyled "true ") [] =
       (Ok doc, [Load "a"; Load "b"; Load "c"]) /\
     graticulePaths doc = []) /\
  (exists doc,
     @buildDocument sampleCollaborators (sampleStyled "TRUE") [] =
       (Ok doc, [Load "a"; Load "b"; Load "c"]) /\
     graticulePaths doc = [@graticuleElement sampleCollaborators sampleWB]).
Proof.
  split; [|split].
  - destruct (@graticule_only_when_true sampleCollaborators sample_createSVG_empty
                (sampleStyled "yes") sampleWB ["a"; "b"; "c"] []
                eq_refl sample_allLoad_abc) as (doc & v & E & _ & _ & _ & _ & Ex).
    exists doc. split; [exact E|].
    apply (Ex "yes"); [|reflexivity]. apply list_elem_of_here.
  - destruct (@graticule_only_when_true sampleCollaborators sample_createSVG_empty
                (sampleStyled "true ") sampleWB ["a"; "b"; "c"] []
                eq_refl sample_allLoad_abc) as (doc & v & E & _ & _ & _ & _ & Ex).
    exists doc. split; [exact E|].
    apply (Ex "true "); [|reflexivity].
    do 2 apply list_elem_of_further. apply list_elem_of_here.
  - destruct (@graticule_only_when_true sampleCollaborators sample_createSVG_empty
                (sampleStyled "TRUE") sampleWB ["a"; "b"; "c"] []
                eq_refl sample_allLoad_abc) as (doc & v & E & Ev & On & _).
    exists doc. split; [exact E|]. apply On.
    assert (Some v = Some "TRUE") as V by (rewrite <- Ev; reflexivity).
    injection V as ->. reflexivity.
Defined.

(** ** The further properties on the sample collaborators *)

Lemma setupProjection_case_insensitive_witness :
  @setupProjection sampleCollaborators "wB" (Some "10,20") =
    Ok (mkProjection Waterman 120%float (600, 400)%float [20; 10; 0]%float).
Proof.
  apply (@setupProjection_case_insensitive sampleCollaborators "WB" "wB").
  - reflexivity.
  - reflexivity.
Defined.

Lemma setupProjection_returns_witness :
  translate (mkProjection Winkel3 200%float (600, 400)%float [20; 10; 0]%float) =
    (600, 400)%float /\
  (Winkel3 = Waterman /\ 200%float = 120%float \/
   Winkel3 = Winkel3 /\ 200%float = 200%float).
Proof.
  destruct (@setupProjection_returns sampleCollaborators "w3" (Some "10,20")
              (mkProjection Winkel3 200%float (600, 400)%float [20; 10; 0]%float)
              eq_refl) as (T & K & _).
  split; [exact T|exact K].
Defined.

Lemma applyBounds_too_few_witness :
  @applyBounds sampleCollaborators sampleWB "1,2,3" = Throw InvalidBoundsError.
Proof.
  apply (@applyBounds_too_few sampleCollaborators "1,2,3").
  vm_compute. lia.
Defined.

Lemma center_then_bounds_witness :
  @mapProjection sampleCollaborators "WB" (Some "10,20") (Some "10,20,30,40") =
    Ok (@fitExtent sampleCollaborators EXTENT (boundingBox 10 20 30 40)%float
          (setRotate [20; 10; 0]%float sampleWB)).
Proof.
  exact (@center_then_bounds sampleCollaborators "WB" "10,20" "10,20,30,40" sampleWB
           10%float 20%float 10%float 20%float 30%float 40%float
           eq_refl eq_refl eq_refl eq_refl eq_refl eq_refl eq_refl eq_refl eq_refl).
Defined.

Lemma parseDatasets_identifiers_witness :
  length (parseDatasets "a , b,,c ") = 4 /\
  countChar "," "a" = 0 /\ "a" <> " " +:+ "" /\ "a" <> "a" +:+ " ".
Proof.
  destruct (parseDatasets_identifiers "a , b,,c ") as (N & Each).
  split; [exact N|].
  destruct (Each "a" ltac:(apply list_elem_of_here)) as (C & Ns & Ne).
  split; [exact C|]. split.
  - apply Ns. do 5 apply list_elem_of_further. apply list_elem_of_here.
  - apply Ne. do 5 apply list_elem_of_further. apply list_elem_of_here.
Defined.

Lemma unknown_styles_ignored_witness :
  @generateMap sampleCollaborators
    (mkOptions None (Some "a,b") None None None (Some {[ "title" := "World" ]})) [] =
  @generateMap sampleCollaborators
    (mkOptions None (Some "a,b") None None None None) [].
Proof.
  apply (@unknown_styles_ignored sampleCollaborators).
  intros k In. rewrite !elem_of_cons, elem_of_nil in In.
  destruct In as [-> | [-> | [-> | [-> | [-> | [-> | []]]]]]]; reflexivity.
Defined.

Lemma document_order_witness :
  exists doc,
    @buildDocument sampleCollaborators (sampleStyled "true") [] =
      (Ok doc, [Load "a"; Load "b"; Load "c"]) /\
    children doc =
      [ @defsElement sampleCollaborators sampleWB;
        @backgroundElement sampleCollaborators (mergedStyles (sampleStyled "true"));
        @graticuleElement sampleCollaborators sampleWB;
        @datasetElement sampleCollaborators sampleWB
          (mergedStyles (sampleStyled "true")) "a";
        @datasetElement sampleCollaborators sampleWB
          (mergedStyles (sampleStyled "true")) "b";
        @datasetElement sampleCollaborators sampleWB
          (mergedStyles (sampleStyled "true")) "c" ] /\
    getAttribute "viewBox" doc = Some "0 0 1200 800".
Proof.
  destruct (@document_order sampleCollaborators (sampleStyled "true") sampleWB
              ["a"; "b"; "c"] [] eq_refl sample_allLoad_abc)
    as (doc & v & E & Ev & C & _ & V).
  exists doc. split; [exact E|]. split; [|exact V].
  assert (Some v = Some "true") as T by (rewrite <- Ev; reflexivity).
  injection T as ->. exact C.
Defined.


Lemma generateMap_returns_witness :
  exists doc,
    @buildDocument sampleCollaborators sampleOptions [] =
      (Ok doc, [Load "a"; Load "b"; Load "c"]) /\
    "<svg><defs/><use/><path/><path/><path/><path/></svg>" = sampleSvgString doc /\
    @writeFile sampleCollaborators "map.svg"
      "<svg><defs/><use/><path/><path/><path/><path/></svg>" = Ok tt.
Proof.
  destruct (@generateMap_returns sampleCollaborators sampleOptions []
              [Load "a"; Load "b"; Load "c";
               WriteFile "map.svg" "<svg><defs/><use/><path/><path/><path/><path/></svg>"]
              "<svg><defs/><use/><path/><path/><path/><path/></svg>" eq_refl)
    as (doc & B & S & W & _).
  exists doc. split; [exact B|]. split; [exact S|exact W].
Defined.

Lemma dataset_paths_clipped_witness :
  exists doc,
    @buildDocument sampleCollaborators (sampleStyled "true") [] =
      (Ok doc, [Load "a"; Load "b"; Load "c"]) /\
    (forall e,
       e ∈ datasetPaths doc ->
       exists mapData,
         mapData ∈ ["a"; "b"; "c"] /\
         tag e = "path" /\
         datum e = Some (Dataset mapData) /\
         getAttribute "d" e = Some mapData /\
         getAttribute "clip-path" e = Some "url(#clip)" /\
         getAttribute "fill" e = Some "none").
Proof.
  exact (@dataset_paths_clipped sampleCollaborators sample_createSVG_empty
           (sampleStyled "true") sampleWB ["a"; "b"; "c"] []
           eq_refl sample_allLoad_abc).
Defined.
